(** * CV-Analyzer AI service: response normalisation, orchestration and the
      HTTP surface, embedded from [ai-service/app/{agent,models,config,main}.py].

    Python values are modelled as follows.
    - A [str] is a list of Unicode code points ([N]); literals of the source
      are written [str "..."].
    - An [int] is a [Z]; a [float] is an IEEE-754 binary64 value, kept in the
      decoded form [spec_float] of the standard library; floats are compared
      with [SFcompare], a float and an integer by their exact values.
    - A [dict] with string keys is an association list in insertion order
      without duplicate keys, as Python dictionaries keep insertion order.
    - An exception is a value of [exn]; a computation that may raise returns
      a [result]. *)

From Stdlib Require Import ZArith NArith List String Ascii Bool Lia.
From Stdlib Require Import Floats.SpecFloat.
Import ListNotations.

Local Open Scope Z_scope.

(* ================================================================== *)
(** ** Python strings *)
(* ================================================================== *)

Module PyStr.

Definition char := N.
Definition pystr := list char.

(** A source literal (ASCII) as a list of code points. *)
Definition str (s : string) : pystr :=
  List.map N_of_ascii (list_ascii_of_string s).

Definition chr (a : ascii) : char := N_of_ascii a.

(** A literal in which the apostrophe stands for the double quote; used
    to write JSON texts. *)
Definition quoted (s : string) : pystr :=
  List.map (fun c => if N.eqb c 39 then 34%N else c) (str s).

Definition NL : pystr := [10%N].

Definition len (s : pystr) : Z := Z.of_nat (List.length s).

Fixpoint str_eqb (a b : pystr) : bool :=
  match a, b with
  | [], [] => true
  | x :: a', y :: b' => N.eqb x y && str_eqb a' b'
  | _, _ => false
  end.

(** [s.startswith(p)] *)
Fixpoint startswith (p s : pystr) : bool :=
  match p, s with
  | [], _ => true
  | _ :: _, [] => false
  | x :: p', y :: s' => N.eqb x y && startswith p' s'
  end.

(** Left-to-right search of [sub] in [s]; [i] is the index of the head of
    [s] in the whole string.  -1 when there is no occurrence. *)
Fixpoint find_aux (sub s : pystr) (i : Z) : Z :=
  if startswith sub s then i
  else match s with
       | [] => -1
       | _ :: t => find_aux sub t (i + 1)
       end.

(** [s.find(sub, start)] *)
Definition find (sub s : pystr) (start : Z) : Z :=
  let n := len s in
  let start := if start <? 0 then Z.max 0 (start + n) else start in
  if n <? start then -1
  else find_aux sub (skipn (Z.to_nat start) s) start.

(** [sub in s] *)
Fixpoint contains (sub s : pystr) : bool :=
  startswith sub s ||
  match s with
  | [] => false
  | _ :: t => contains sub t
  end.

(** Index adjustment of a slice bound: negative bounds count from the
    end, and every bound is clipped to [0, len]. *)
Definition adjust_index (i n : Z) : Z :=
  if i <? 0 then Z.max 0 (i + n) else Z.min i n.

(** [s[lo:hi]] *)
Definition slice (s : pystr) (lo hi : Z) : pystr :=
  let n := len s in
  let lo := adjust_index lo n in
  let hi := adjust_index hi n in
  firstn (Z.to_nat (hi - lo)) (skipn (Z.to_nat lo) s).

(** [s[:hi]] *)
Definition slice_to (s : pystr) (hi : Z) : pystr := slice s 0 hi.

(** The characters [str.strip()] removes: the code points for which
    [str.isspace] holds. *)
Definition isspace (c : char) : bool :=
  let c := Z.of_N c in
  ((9 <=? c) && (c <=? 13)) || ((28 <=? c) && (c <=? 32))
  || (c =? 133) || (c =? 160) || (c =? 5760)
  || ((8192 <=? c) && (c <=? 8202))
  || (c =? 8232) || (c =? 8233) || (c =? 8239) || (c =? 8287)
  || (c =? 12288).

Fixpoint lstrip (s : pystr) : pystr :=
  match s with
  | [] => []
  | c :: t => if isspace c then lstrip t else s
  end.

Definition rstrip (s : pystr) : pystr := rev (lstrip (rev s)).

(** [s.strip()] *)
Definition strip (s : pystr) : pystr := rstrip (lstrip s).

End PyStr.
Export PyStr.

(* ================================================================== *)
(** ** Python values, exceptions *)
(* ================================================================== *)

Module Py.

Definition pyfloat := spec_float.

#[local] Unset Elimination Schemes.
Inductive pyval : Type :=
| PyNone
| PyBool (b : bool)
| PyInt (z : Z)
| PyFloat (f : pyfloat)
| PyStr (s : pystr)
| PyList (l : list pyval)
| PyDict (d : list (pystr * pyval)).

#[local] Set Elimination Schemes.

Definition pydict := list (pystr * pyval).

(** The exceptions the service can see.  [JSONDecodeError] and pydantic's
    [ValidationError] are subclasses of [ValueError]; [TimeoutError] is
    [asyncio.TimeoutError]. *)
Inductive exn : Type :=
| ValueError (msg : pystr)
| JSONDecodeError
| ValidationError (msg : pystr)
| TypeError (msg : pystr)
| KeyError (key : pystr)
| RuntimeError (msg : pystr)
| TimeoutError
| RecursionError
| RemoteError (msg : pystr).

(** [isinstance(e, ValueError)] *)
Definition is_ValueError (e : exn) : bool :=
  match e with
  | ValueError _ | JSONDecodeError | ValidationError _ => true
  | _ => false
  end.

(** [str(e)].  The text of a decoding error, which tells where the
    decoder stopped, is not modelled; a [KeyError] shows its key in
    quotes. *)
Definition exn_str (e : exn) : pystr :=
  match e with
  | ValueError m | ValidationError m | TypeError m
  | RuntimeError m | RemoteError m => m
  | KeyError k => [39%N] ++ k ++ [39%N]
  | JSONDecodeError => str "Expecting value"
  | TimeoutError => []
  | RecursionError => str "maximum recursion depth exceeded"
  end.

Inductive result (A : Type) : Type :=
| Return (a : A)
| Raise (e : exn).
Arguments Return {A} a.
Arguments Raise {A} e.

(** [d.get(k)] / [k in d] *)
Fixpoint dict_get (k : pystr) (d : pydict) : option pyval :=
  match d with
  | [] => None
  | (k', v) :: d' => if str_eqb k k' then Some v else dict_get k d'
  end.

Definition dict_mem (k : pystr) (d : pydict) : bool :=
  match dict_get k d with Some _ => true | None => false end.

(** [d[k] = v]: an existing key keeps its position. *)
Fixpoint dict_set (k : pystr) (v : pyval) (d : pydict) : pydict :=
  match d with
  | [] => [(k, v)]
  | (k', v') :: d' =>
      if str_eqb k k' then (k', v) :: d' else (k', v') :: dict_set k v d'
  end.

(** [dict(pairs)] *)
Definition dict_of_pairs (pairs : list (pystr * pyval)) : pydict :=
  fold_left (fun d kv => dict_set (fst kv) (snd kv) d) pairs [].

(** *** binary64 *)

Definition prec : Z := 53.
Definition emax : Z := 1024.

(** The float nearest to the integer [z] (ties to even). *)
Definition float_of_Z (z : Z) : pyfloat := binary_normalize prec emax z 0 false.

(** [float(text)] for a decimal literal with digits [m] (as an integer),
    sign [neg] and decimal exponent [e10]: the binary64 value nearest to
    [m * 10^e10], ties to even. *)
Definition float_of_decimal (neg : bool) (m : Z) (e10 : Z) : pyfloat :=
  match m with
  | Zpos p =>
      if 0 <=? e10 then
        match m * 10 ^ e10 with
        | Zpos q => binary_round prec emax neg q 0
        | _ => S754_zero neg
        end
      else
        let d := 10 ^ (- e10) in
        let s := Z.max 0 (prec + 2 + Z.log2 d + 1 - Z.log2 m) in
        let n := m * 2 ^ s in
        let q := n / d in
        let r := n mod d in
        let loc := if r =? 0 then loc_Exact else loc_Inexact (2 * r ?= d) in
        binary_round_aux prec emax neg q (- s) loc
  | _ => S754_zero neg
  end.

End Py.
Export Py.

(* ================================================================== *)
(** ** [json.loads]

    The decoder of Python's standard library with its default settings:
    strict strings, no hooks, [NaN], [Infinity] and [-Infinity] accepted.
    The functions work on the text that remains instead of on an index
    into it.  [scan_once] and the two loops take fuel; [loads] gives them
    more than twice the length of the text, which is never used up (see
    [loads_total]).  Two limits of the interpreter are not modelled: its
    recursion limit, and its limit on the number of digits of an integer
    literal. *)
(* ================================================================== *)

Module Json.

Definition QUOTE : char := 34%N.
Definition BACKSLASH : char := 92%N.

Definition ch_is (a : ascii) (c : char) : bool := N.eqb c (chr a).

(** The decoder's whitespace: space, tab, line feed, carriage return. *)
Definition is_ws (c : char) : bool :=
  N.eqb c 32 || N.eqb c 9 || N.eqb c 10 || N.eqb c 13.

Fixpoint skip_ws (s : pystr) : pystr :=
  match s with
  | c :: t => if is_ws c then skip_ws t else s
  | [] => []
  end.

Definition is_digit (c : char) : bool := (N.leb 48 c) && (N.leb c 57).
Definition digit_val (c : char) : Z := Z.of_N c - 48.

Definition hex_val (c : char) : option Z :=
  if is_digit c then Some (digit_val c)
  else if (N.leb 97 c) && (N.leb c 102) then Some (Z.of_N c - 87)
  else if (N.leb 65 c) && (N.leb c 70) then Some (Z.of_N c - 55)
  else None.

Definition hex4 (a b c d : char) : option Z :=
  match hex_val a, hex_val b, hex_val c, hex_val d with
  | Some x, Some y, Some z, Some w => Some (((x * 16 + y) * 16 + z) * 16 + w)
  | _, _, _, _ => None
  end.

(** The longest run of decimal digits at the head of [s]: the number read
    so far, how many digits were read, and the rest. *)
Fixpoint digits_span (s : pystr) (acc : Z) (count : Z) : Z * Z * pystr :=
  match s with
  | c :: t =>
      if is_digit c then digits_span t (acc * 10 + digit_val c) (count + 1)
      else (acc, count, s)
  | [] => (acc, count, s)
  end.

(** The number pattern of the scanner: an optional minus sign, then
    either 0 or a digit 1-9 followed by digits; then optionally a point
    and at least one digit; then optionally e or E, an optional sign and
    at least one digit.  The match is converted with [float] when a
    fraction or an exponent is present, with [int] otherwise. *)
Definition match_number (s : pystr) : option (pyval * pystr) :=
  let '(neg, s1) :=
    match s with
    | c :: t => if ch_is "-" c then (true, t) else (false, s)
    | [] => (false, s)
    end in
  match s1 with
  | c :: t =>
      if is_digit c then
        let '(ip, _, s2) :=
          if ch_is "0" c then (0, 1, t) else digits_span t (digit_val c) 1 in
        let '(mant, nfrac, s3) :=
          match s2 with
          | d :: f :: _ =>
              if ch_is "." d && is_digit f then digits_span (tl s2) ip 0
              else (ip, 0, s2)
          | _ => (ip, 0, s2)
          end in
        let '(ex, nexp, s4) :=
          match s3 with
          | e :: t3 =>
              if ch_is "e" e || ch_is "E" e then
                let '(eneg, t4) :=
                  match t3 with
                  | sg :: t' =>
                      if ch_is "-" sg then (true, t')
                      else if ch_is "+" sg then (false, t')
                      else (false, t3)
                  | [] => (false, t3)
                  end in
                let '(ev, cnt, t5) := digits_span t4 0 0 in
                if 0 <? cnt then ((if eneg then - ev else ev), cnt, t5)
                else (0, 0, s3)
              else (0, 0, s3)
          | [] => (0, 0, s3)
          end in
        if (0 <? nfrac) || (0 <? nexp)
        then Some (PyFloat (float_of_decimal neg mant (ex - nfrac)), s4)
        else Some (PyInt (if neg then - ip else ip), s4)
      else None
  | [] => None
  end.

(** BACKSLASH table of the decoder. *)
Definition unescape (e : char) : option char :=
  if N.eqb e QUOTE then Some QUOTE
  else if N.eqb e BACKSLASH then Some BACKSLASH
  else if ch_is "/" e then Some (chr "/")
  else if ch_is "b" e then Some 8%N
  else if ch_is "f" e then Some 12%N
  else if ch_is "n" e then Some 10%N
  else if ch_is "r" e then Some 13%N
  else if ch_is "t" e then Some 9%N
  else None.

Definition is_high_surrogate (u : Z) : bool := (55296 <=? u) && (u <=? 56319).
Definition is_low_surrogate (u : Z) : bool := (56320 <=? u) && (u <=? 57343).
Definition join_surrogates (u u2 : Z) : Z :=
  65536 + Z.lor (Z.shiftl (u - 55296) 10) (u2 - 56320).

(** [scanstring(s, end, strict=True)]: [s] is the text after the opening
    quote, [acc] the decoded characters so far, last first. *)
Fixpoint scanstring (s : pystr) (acc : pystr) : option (pystr * pystr) :=
  match s with
  | [] => None
  | c :: t =>
      if N.eqb c QUOTE then Some (rev acc, t)
      else if N.eqb c BACKSLASH then
        match t with
        | [] => None
        | e :: t1 =>
            if ch_is "u" e then
              match t1 with
              | h1 :: h2 :: h3 :: h4 :: t2 =>
                  match hex4 h1 h2 h3 h4 with
                  | None => None
                  | Some uni =>
                      match t2 with
                      | b :: u :: t3 =>
                          if is_high_surrogate uni && N.eqb b BACKSLASH && ch_is "u" u then
                            match t3 with
                            | g1 :: g2 :: g3 :: g4 :: t4 =>
                                match hex4 g1 g2 g3 g4 with
                                | None => None
                                | Some uni2 =>
                                    if is_low_surrogate uni2
                                    then scanstring t4 (Z.to_N (join_surrogates uni uni2) :: acc)
                                    else scanstring t2 (Z.to_N uni :: acc)
                                end
                            | _ => None
                            end
                          else scanstring t2 (Z.to_N uni :: acc)
                      | _ => scanstring t2 (Z.to_N uni :: acc)
                      end
                  end
              | _ => None
              end
            else
              match unescape e with
              | Some ch => scanstring t1 (ch :: acc)
              | None => None
              end
        end
      else if N.ltb c 32 then None
      else scanstring t (c :: acc)
  end.

Inductive outcome (A : Type) : Type :=
| Parsed (a : A) (rest : pystr)
| Malformed
| Exhausted.
Arguments Parsed {A} a rest.
Arguments Malformed {A}.
Arguments Exhausted {A}.

(** [scan_once] of the scanner, [JSONObject] and [JSONArray] with their
    [while True] loops. *)
Fixpoint scan_once (fuel : nat) (s : pystr) {struct fuel} : outcome pyval :=
  match fuel with
  | O => Exhausted
  | S fuel' =>
      match s with
      | [] => Malformed
      | c :: t =>
          if N.eqb c QUOTE then
            match scanstring t [] with
            | Some (v, rest) => Parsed (PyStr v) rest
            | None => Malformed
            end
          else if ch_is "{" c then
            match skip_ws t with
            | c1 :: t1 =>
                if ch_is "}" c1 then Parsed (PyDict []) t1
                else if N.eqb c1 QUOTE then object_loop fuel' t1 []
                else Malformed
            | [] => Malformed
            end
          else if ch_is "[" c then
            match skip_ws t with
            | c1 :: t1 =>
                if ch_is "]" c1 then Parsed (PyList []) t1
                else array_loop fuel' (c1 :: t1) []
            | [] => Malformed
            end
          else if startswith (str "null") s then Parsed PyNone (skipn 4 s)
          else if startswith (str "true") s then Parsed (PyBool true) (skipn 4 s)
          else if startswith (str "false") s then Parsed (PyBool false) (skipn 5 s)
          else
            match match_number s with
            | Some (v, rest) => Parsed v rest
            | None =>
                if startswith (str "NaN") s then Parsed (PyFloat S754_nan) (skipn 3 s)
                else if startswith (str "Infinity") s
                then Parsed (PyFloat (S754_infinity false)) (skipn 8 s)
                else if startswith (str "-Infinity") s
                then Parsed (PyFloat (S754_infinity true)) (skipn 9 s)
                else Malformed
            end
      end
  end

(** One turn of the loop of [JSONObject]: [s] is the text after the
    opening quote of a key, [pairs] the members read so far. *)
with object_loop (fuel : nat) (s : pystr) (pairs : list (pystr * pyval))
       {struct fuel} : outcome pyval :=
  match fuel with
  | O => Exhausted
  | S fuel' =>
      match scanstring s [] with
      | None => Malformed
      | Some (key, r1) =>
          match skip_ws r1 with
          | c :: r2 =>
              if ch_is ":" c then
                match scan_once fuel' (skip_ws r2) with
                | Parsed v r3 =>
                    let pairs' := pairs ++ [(key, v)] in
                    match skip_ws r3 with
                    | c3 :: r4 =>
                        if ch_is "}" c3 then Parsed (PyDict (dict_of_pairs pairs')) r4
                        else if ch_is "," c3 then
                          match skip_ws r4 with
                          | c5 :: r5 =>
                              if N.eqb c5 QUOTE then object_loop fuel' r5 pairs'
                              else Malformed
                          | [] => Malformed
                          end
                        else Malformed
                    | [] => Malformed
                    end
                | Malformed => Malformed
                | Exhausted => Exhausted
                end
              else Malformed
          | [] => Malformed
          end
      end
  end

(** One turn of the loop of [JSONArray]: [s] is the text where the next
    element starts, [values] the elements read so far. *)
with array_loop (fuel : nat) (s : pystr) (values : list pyval)
       {struct fuel} : outcome pyval :=
  match fuel with
  | O => Exhausted
  | S fuel' =>
      match scan_once fuel' s with
      | Parsed v r1 =>
          let values' := values ++ [v] in
          match skip_ws r1 with
          | c :: r2 =>
              if ch_is "]" c then Parsed (PyList values') r2
              else if ch_is "," c then array_loop fuel' (skip_ws r2) values'
              else Malformed
          | [] => Malformed
          end
      | Malformed => Malformed
      | Exhausted => Exhausted
      end
  end.

(** [json.loads(s)] for a [str] argument. *)
Definition loads (s : pystr) : result pyval :=
  if startswith [65279%N] s then Raise JSONDecodeError
  else
    match scan_once (S (2 * List.length s)) (skip_ws s) with
    | Parsed v rest =>
        match skip_ws rest with
        | [] => Return v
        | _ :: _ => Raise JSONDecodeError
        end
    | Malformed => Raise JSONDecodeError
    | Exhausted => Raise RecursionError
    end.

(** *** Where the decoder above and the interpreter's agree

    The decoder above has neither the recursion limit of the interpreter
    (one level per nested array or object; 1000 frames by default) nor
    its limit on the digits of an integer literal (4300 by default).  A
    text with at most 100 opening brackets and no run of more than 4300
    digits reaches neither, and on such a text [json.loads] does what
    [loads] does. *)

Fixpoint count_open (s : pystr) : nat :=
  match s with
  | [] => O
  | c :: t => if ch_is "[" c || ch_is "{" c then S (count_open t) else count_open t
  end.

Fixpoint longest_digit_run (s : pystr) (run : nat) : nat :=
  match s with
  | [] => run
  | c :: t =>
      if is_digit c then longest_digit_run t (S run)
      else Nat.max run (longest_digit_run t O)
  end.

Definition within_limits (s : pystr) : bool :=
  Nat.leb (count_open s) 100 && Nat.leb (longest_digit_run s O) 4300.

(** The characters a JSON value can begin with in the grammar of RFC 8259:
    a quote, a bracket, a brace, a minus sign, a digit, and the first
    letters of true, false and null. *)
Definition rfc_value_start (c : char) : bool :=
  N.eqb c QUOTE || ch_is "[" c || ch_is "{" c || ch_is "-" c || is_digit c
  || ch_is "t" c || ch_is "f" c || ch_is "n" c.

End Json.

(* ================================================================== *)
(** ** Computations that may raise *)
(* ================================================================== *)

Module Res.

Definition bind {A B : Type} (m : result A) (k : A -> result B) : result B :=
  match m with
  | Return a => k a
  | Raise e => Raise e
  end.

Fixpoint mapM {A B : Type} (f : A -> result B) (l : list A) : result (list B) :=
  match l with
  | [] => Return []
  | x :: l' =>
      bind (f x) (fun y => bind (mapM f l') (fun ys => Return (y :: ys)))
  end.

End Res.

Declare Scope res_scope.
Delimit Scope res_scope with res.
Notation "x <- m ;; k" := (Res.bind m (fun x => k))
  (at level 61, m at next level, right associativity) : res_scope.
Notation "m ;; k" := (Res.bind m (fun _ => k))
  (at level 61, right associativity) : res_scope.

(* ================================================================== *)
(** ** Operators of Python on the values of a decoded reply *)
(* ================================================================== *)

Module PyOps.
Local Open Scope res_scope.

(** [k in container] for a string [k]. *)
Definition py_in (k : pystr) (container : pyval) : result bool :=
  match container with
  | PyDict d => Return (dict_mem k d)
  | PyList l =>
      Return (existsb (fun v => match v with
                                | PyStr s => str_eqb s k
                                | _ => false
                                end) l)
  | PyStr s => Return (contains k s)
  | _ => Raise (TypeError (str "argument is not iterable"))
  end.

(** [container[k]] for a string [k]. *)
Definition getitem (container : pyval) (k : pystr) : result pyval :=
  match container with
  | PyDict d =>
      match dict_get k d with
      | Some v => Return v
      | None => Raise (KeyError k)
      end
  | _ => Raise (TypeError (str "object is not subscriptable by a string"))
  end.

(** [container[k] = v] for a string [k]. *)
Definition setitem (container : pyval) (k : pystr) (v : pyval) : result pyval :=
  match container with
  | PyDict d => Return (PyDict (dict_set k v d))
  | _ => Raise (TypeError (str "object does not support item assignment"))
  end.

(** Iteration, as in [for s in v]. *)
Definition iterate (v : pyval) : result (list pyval) :=
  match v with
  | PyList l => Return l
  | PyStr s => Return (List.map (fun c => PyStr [c]) s)
  | PyDict d => Return (List.map (fun kv => PyStr (fst kv)) d)
  | _ => Raise (TypeError (str "object is not iterable"))
  end.

(** Exact comparison of a float with an integer; [None] for NaN. *)
Definition float_Z_compare (f : pyfloat) (z : Z) : option comparison :=
  match f with
  | S754_nan => None
  | S754_infinity sg => Some (if sg then Lt else Gt)
  | S754_zero _ => Some (0 ?= z)
  | S754_finite sg m e =>
      let v := if sg then Zneg m else Zpos m in
      Some (if 0 <=? e then (v * 2 ^ e ?= z) else (v ?= z * 2 ^ (- e)))
  end.

(** The integer a value is when it is an [int] ([bool] is a subclass). *)
Definition as_int (v : pyval) : option Z :=
  match v with
  | PyInt z => Some z
  | PyBool b => Some (Z.b2z b)
  | _ => None
  end.

(** Comparison of two values of which at least one is a number: the
    order, [None] when a NaN is involved; [TypeError] when the other
    value is not a number. *)
Definition num_compare (a b : pyval) : result (option comparison) :=
  match as_int a, as_int b, a, b with
  | Some x, Some y, _, _ => Return (Some (x ?= y))
  | Some x, None, _, PyFloat g =>
      Return (option_map CompOpp (float_Z_compare g x))
  | None, Some y, PyFloat f, _ => Return (float_Z_compare f y)
  | None, None, PyFloat f, PyFloat g => Return (SFcompare f g)
  | _, _, _, _ => Raise (TypeError (str "comparison not supported between these types"))
  end.

(** [a <= b], [a < b], [a > b] *)
Definition py_le (a b : pyval) : result bool :=
  c <- num_compare a b ;;
  Return (match c with Some Lt | Some Eq => true | _ => false end).

Definition py_lt (a b : pyval) : result bool :=
  c <- num_compare a b ;;
  Return (match c with Some Lt => true | _ => false end).

Definition py_gt (a b : pyval) : result bool :=
  c <- num_compare a b ;;
  Return (match c with Some Gt => true | _ => false end).

(** A JSON number. *)
Definition is_number (v : pyval) : bool :=
  match v with
  | PyInt _ | PyFloat _ => true
  | _ => false
  end.

(** [min(a, b)]: [b] only when [b < a]. *)
Definition py_min (a b : pyval) : result pyval :=
  lt <- py_lt b a ;; Return (if lt then b else a).

(** [max(a, b)]: [b] only when [b > a]. *)
Definition py_max (a b : pyval) : result pyval :=
  gt <- py_gt b a ;; Return (if gt then b else a).

End PyOps.
Export PyOps.

(* ================================================================== *)
(** ** models.py *)
(* ================================================================== *)

Module Models.
Local Open Scope res_scope.

Record ResumeAnalysisRequest : Type := {
  content : pystr;
  user_id : pystr
}.

Record Suggestion : Type := {
  category : pystr;
  description : pystr;
  priority : Z
}.

Record ResumeAnalysisResponse : Type := {
  score : pyfloat;
  optimized_content : pystr;
  suggestions : list Suggestion;
  analysis_metadata : pydict
}.

(** A code point of the surrogate range; a [str] that holds one cannot be
    encoded as UTF-8. *)
Definition is_surrogate (c : char) : bool := N.leb 55296 c && N.leb c 57343.

(** A [str] field with [min_length] and [max_length]: the value must be a
    string, and the bounds are checked on it as it was sent.  To count
    the characters of a bounded field the validator encodes the string,
    and refuses one that holds a surrogate; a field without bounds takes
    any string. *)
Definition str_field (min_length max_length : option Z) (v : pyval) : result pystr :=
  match v with
  | PyStr s =>
      match min_length, max_length with
      | None, None => Return s
      | _, _ =>
          if existsb is_surrogate s
          then Raise (ValidationError (str "string_unicode"))
          else if match min_length with Some m => len s <? m | None => false end
          then Raise (ValidationError (str "string_too_short"))
          else if match max_length with Some m => m <? len s | None => false end
          then Raise (ValidationError (str "string_too_long"))
          else Return s
      end
  | _ => Raise (ValidationError (str "string_type"))
  end.

(** The integer a float is, when it has no fractional part. *)
Definition float_as_int (f : pyfloat) : option Z :=
  match f with
  | S754_zero _ => Some 0
  | S754_finite sg m e =>
      let v := if sg then Zneg m else Zpos m in
      if 0 <=? e then Some (v * 2 ^ e)
      else if (Zpos m) mod 2 ^ (- e) =? 0 then Some (v / 2 ^ (- e))
      else None
  | _ => None
  end.

(** The blanks the validator trims from a text before it reads a number:
    the code points with the Unicode property White_Space. *)
Definition is_white_space (c : char) : bool :=
  let c := Z.of_N c in
  ((9 <=? c) && (c <=? 13)) || (c =? 32)
  || (c =? 133) || (c =? 160) || (c =? 5760)
  || ((8192 <=? c) && (c <=? 8202))
  || (c =? 8232) || (c =? 8233) || (c =? 8239) || (c =? 8287)
  || (c =? 12288).

Fixpoint trim_start (s : pystr) : pystr :=
  match s with
  | [] => []
  | c :: t => if is_white_space c then trim_start t else s
  end.

Definition trim (s : pystr) : pystr := rev (trim_start (rev (trim_start s))).

(** The integer a text is.  Modelled: an optional sign, digits, and an
    optional fraction made of zeros only, with blanks around; the other
    forms the validator may take (digit separators) are read as no
    integer. *)
Definition str_as_int (s : pystr) : option Z :=
  let '(neg, t) :=
    match trim s with
    | c :: t' =>
        if Json.ch_is "-" c then (true, t')
        else if Json.ch_is "+" c then (false, t')
        else (false, c :: t')
    | [] => (false, [])
    end in
  match Json.digits_span t 0 0 with
  | (n, cnt, rest) =>
      let zeros_only :=
        match rest with
        | [] => true
        | p :: z :: zs => Json.ch_is "." p && forallb (Json.ch_is "0") (z :: zs)
        | _ => false
        end in
      if (0 <? cnt) && zeros_only then Some (if neg then - n else n) else None
  end.

(** An [int] field with [ge] and [le], in pydantic's default (lax) mode. *)
Definition int_field (ge le : Z) (v : pyval) : result Z :=
  let coerced :=
    match v with
    | PyInt z => Some z
    | PyBool b => Some (Z.b2z b)
    | PyFloat f => float_as_int f
    | PyStr s => str_as_int s
    | _ => None
    end in
  match coerced with
  | None => Raise (ValidationError (str "int_type"))
  | Some z =>
      if z <? ge then Raise (ValidationError (str "greater_than_equal"))
      else if le <? z then Raise (ValidationError (str "less_than_equal"))
      else Return z
  end.

(** A [float] field with [ge] and [le] for a number; a NaN fails both
    bounds. *)
Definition float_field (ge le : Z) (v : pyval) : result pyfloat :=
  let coerced :=
    match v with
    | PyFloat f => Some f
    | PyInt z => Some (float_of_Z z)
    | PyBool b => Some (float_of_Z (Z.b2z b))
    | _ => None
    end in
  match coerced with
  | None => Raise (ValidationError (str "float_type"))
  | Some f =>
      match float_Z_compare f ge with
      | Some Gt | Some Eq =>
          match float_Z_compare f le with
          | Some Lt | Some Eq => Return f
          | _ => Raise (ValidationError (str "less_than_equal"))
          end
      | _ => Raise (ValidationError (str "greater_than_equal"))
      end
  end.

(** [ResumeAnalysisRequest.validate_content] *)
Definition validate_content (v : pystr) : result pystr :=
  match strip v with
  | [] => Raise (ValueError (str "Content cannot be empty or whitespace"))
  | _ :: _ => Return (strip v)
  end.

(** A required field: its validation, or the error for its absence. *)
Definition required {A : Type} (k : string) (d : pydict)
    (validate : pyval -> result A) : result A :=
  match dict_get (str k) d with
  | Some v => validate v
  | None => Raise (ValidationError (str "missing"))
  end.

(** Validation of a request body against [ResumeAnalysisRequest]: the
    length bounds of [content] come first, [validate_content] runs after
    them on a value that passed, and an error it raises is reported as
    a validation error.  Every field is validated; one error rejects. *)
Definition ResumeAnalysisRequest_validate (body : pyval)
    : result ResumeAnalysisRequest :=
  match body with
  | PyDict d =>
      let c :=
        required "content" d (fun v =>
          s <- str_field (Some 10) (Some 10000) v ;;
          match validate_content s with
          | Return s' => Return s'
          | Raise e => Raise (ValidationError (exn_str e))
          end) in
      let u := required "user_id" d (str_field (Some 1) (Some 100)) in
      match c, u with
      | Return c', Return u' => Return {| content := c'; user_id := u' |}
      | Raise e, _ => Raise e
      | _, Raise e => Raise e
      end
  | _ => Raise (ValidationError (str "model_attributes_type"))
  end.

(** An item whose three fields have the types of the model as they are:
    strings for the category and the description, an integer for the
    priority. *)
Definition typed_suggestion (v : pyval) : bool :=
  match v with
  | PyDict d =>
      match dict_get (str "category") d, dict_get (str "description") d,
            dict_get (str "priority") d with
      | Some (PyStr _), Some (PyStr _), Some (PyInt _) => true
      | _, _, _ => false
      end
  | _ => false
  end.

(** A [Suggestion] built with [s] unpacked as its keyword arguments:
    [s] must be a mapping; keys other than the three fields are
    ignored. *)
Definition Suggestion_init (s : pyval) : result Suggestion :=
  match s with
  | PyDict d =>
      let c := required "category" d (str_field None None) in
      let ds := required "description" d (str_field None None) in
      let p := required "priority" d (int_field 1 5) in
      match c, ds, p with
      | Return c', Return d', Return p' =>
          Return {| category := c'; description := d'; priority := p' |}
      | Raise e, _, _ => Raise e
      | _, Raise e, _ => Raise e
      | _, _, Raise e => Raise e
      end
  | _ => Raise (TypeError (str "argument after ** must be a mapping"))
  end.

(** [ResumeAnalysisResponse(score=..., optimized_content=...,
    suggestions=..., analysis_metadata=...)] *)
Definition ResumeAnalysisResponse_init
    (score_ optimized_content_ : pyval) (suggestions_ : list Suggestion)
    (metadata : pydict) : result ResumeAnalysisResponse :=
  match float_field 0 100 score_, str_field None None optimized_content_ with
  | Return sc, Return oc =>
      Return {| score := sc; optimized_content := oc;
                suggestions := suggestions_; analysis_metadata := metadata |}
  | Raise e, _ => Raise e
  | _, Raise e => Raise e
  end.

End Models.

(* ================================================================== *)
(** ** config.py *)
(* ================================================================== *)

Module Config.

Record Settings : Type := {
  model_deployment_name : pystr;
  max_analysis_length : Z;
  request_timeout : Z
}.

(** The values of [Settings] when the environment overrides none. *)
Definition default_settings : Settings := {|
  model_deployment_name := str "gpt-4o-deployment";
  max_analysis_length := 10000;
  request_timeout := 30
|}.

End Config.

(* ================================================================== *)
(** ** agent.py

    The remote agent is an oracle: for a prompt it tells how long the call
    takes and how it ends.  The process state is the module-level
    [_agent_instance]; a trace of events records, for the statements
    below, each entry into [analyze_resume] and each prompt handed to the
    remote agent.  The clock readings that go into the metadata are an
    input. *)
(* ================================================================== *)

Module Agent.
Import Config Models.

Record Reply : Type := {
  latency_ms : Z;
  outcome : result pystr
}.

Record ChatAgent : Type := {
  run : pystr -> Reply
}.

Record Clock : Type := {
  processing_time_ms : pyfloat;
  timestamp : pystr
}.

Record ResumeAnalyzerAgent : Type := {
  settings : Settings;
  _agent : option ChatAgent
}.

Inductive event : Type :=
| Invoked (content user_id : pystr)
| Submitted (prompt : pystr).

Record State : Type := {
  _agent_instance : option ResumeAnalyzerAgent;
  trace : list event
}.

Record World : Type := {
  get_settings : Settings;
  connect : result ChatAgent;
  clock : Clock
}.

(** *** State and exceptions *)

Definition M (A : Type) : Type := State -> result A * State.

Definition ret {A : Type} (a : A) : M A := fun st => (Return a, st).

Definition raise {A : Type} (e : exn) : M A := fun st => (Raise e, st).

Definition bind {A B : Type} (m : M A) (k : A -> M B) : M B :=
  fun st =>
    match m st with
    | (Return a, st') => k a st'
    | (Raise e, st') => (Raise e, st')
    end.

Definition lift {A : Type} (r : result A) : M A := fun st => (r, st).

Definition emit (ev : event) : M unit :=
  fun st => (Return tt, {| _agent_instance := _agent_instance st;
                           trace := trace st ++ [ev] |}).

Definition set_instance (a : option ResumeAnalyzerAgent) : M unit :=
  fun st => (Return tt, {| _agent_instance := a; trace := trace st |}).

(** [try: m  except Exception as e: handler e] *)
Definition try_except {A : Type} (m : M A) (handler : exn -> M A) : M A :=
  fun st =>
    match m st with
    | (Return a, st') => (Return a, st')
    | (Raise e, st') => handler e st'
    end.

Declare Scope m_scope.
Delimit Scope m_scope with M.
Notation "x <- m ;; k" := (bind m (fun x => k))
  (at level 61, m at next level, right associativity) : m_scope.
Notation "m ;; k" := (bind m (fun _ => k))
  (at level 61, right associativity) : m_scope.

(** *** _parse_agent_response *)

Definition FENCE_JSON : pystr := str "```json".
Definition FENCE : pystr := str "```".

(** The text handed to [json.loads]: the first branch of the [try]. *)
Definition extract_json_text (response_text : pystr) : pystr :=
  if contains FENCE_JSON response_text then
    let json_start := find FENCE_JSON response_text 0 + 7 in
    let json_end := find FENCE response_text json_start in
    strip (slice response_text json_start json_end)
  else if contains FENCE response_text then
    let json_start := find FENCE response_text 0 + 3 in
    let json_end := find FENCE response_text json_start in
    strip (slice response_text json_start json_end)
  else strip response_text.

Definition required_fields : list pystr :=
  [str "score"; str "optimized_content"; str "suggestions"].

(** The [for field in required_fields] loop. *)
Fixpoint check_required (fields : list pystr) (analysis : pyval) : result unit :=
  match fields with
  | [] => Return tt
  | field :: rest =>
      (present <- py_in field analysis ;;
       if negb present
       then Raise (ValueError (str "Missing required field: " ++ field))
       else check_required rest analysis)%res
  end.

(** [0 <= v <= 100] *)
Definition in_range (v : pyval) : result bool :=
  (lo <- py_le (PyInt 0) v ;;
   if lo then py_le v (PyInt 100) else Return false)%res.

(** [max(0, min(100, v))] *)
Definition clamp (v : pyval) : result pyval :=
  (m <- py_min (PyInt 100) v ;; py_max (PyInt 0) m)%res.

(** The range check of the score and its clamp. *)
Definition clamp_score (analysis : pyval) : result pyval :=
  (sc <- getitem analysis (str "score") ;;
   ok <- in_range sc ;;
   if negb ok then
     sc' <- getitem analysis (str "score") ;;
     c <- clamp sc' ;;
     setitem analysis (str "score") c
   else Return analysis)%res.

(** The default analysis returned when the reply cannot be decoded. *)
Definition FALLBACK : pyval :=
  PyDict
    [ (str "score", PyFloat (float_of_decimal false 700 (-1)));
      (str "optimized_content",
       PyStr (str "Analysis parsing failed. Original content returned."));
      (str "suggestions",
       PyList
         [ PyDict
             [ (str "category", PyStr (str "System"));
               (str "description",
                PyStr (str "Unable to parse AI response. Please try again."));
               (str "priority", PyInt 1) ] ]);
      (str "reasoning", PyStr (str "Response parsing error")) ].

(** The body of the [try] once the text is extracted. *)
Definition parse_json_text (json_text : pystr) : result pyval :=
  (analysis <- Json.loads json_text ;;
   check_required required_fields analysis ;;
   clamp_score analysis)%res.

(** The [try] with its [except json.JSONDecodeError] clause, once the
    text is extracted: only a decoding error is turned into the default
    analysis, any other exception goes to the caller. *)
Definition parse_or_fallback (json_text : pystr) : result pyval :=
  match parse_json_text json_text with
  | Raise JSONDecodeError => Return FALLBACK
  | r => r
  end.

Definition _parse_agent_response (response_text : pystr) : result pyval :=
  parse_or_fallback (extract_json_text response_text).

(** *** analyze_resume *)

Definition PROMPT_HEAD : pystr :=
  str "Analyze this resume and provide a comprehensive evaluation:" ++ NL
  ++ NL
  ++ str "RESUME CONTENT:" ++ NL
  ++ str "---" ++ NL.

Definition PROMPT_TAIL : pystr :=
  NL
  ++ str "---" ++ NL
  ++ NL
  ++ str "Provide your analysis in the specified JSON format.".

Definition make_prompt (content : pystr) : pystr :=
  PROMPT_HEAD ++ content ++ PROMPT_TAIL.

Definition TIMEOUT_MESSAGE : pystr :=
  str "Analysis request timed out. Please try again.".

(** [asyncio.wait_for(call, timeout)] with [timeout] in seconds: a timeout
    that is not positive expires before the call has started. *)
Definition wait_for (call : Reply) (timeout : Z) : result pystr :=
  if (timeout <=? 0) || (1000 * timeout <? latency_ms call)
  then Raise TimeoutError
  else outcome call.

(** The content that goes into the prompt. *)
Definition truncate (st : Settings) (content : pystr) : pystr :=
  if max_analysis_length st <? len content
  then slice_to content (max_analysis_length st)
  else content.

Definition analyze_resume (self : ResumeAnalyzerAgent) (clk : Clock)
    (content user_id : pystr)
    : M (pyval * pyval * list Suggestion * pydict) :=
  (emit (Invoked content user_id) ;;
   try_except
     (match _agent self with
      | None =>
          raise (RuntimeError (str "Agent not initialized. Call initialize() first."))
      | Some agent =>
          let content := truncate (settings self) content in
          let prompt := make_prompt content in
          emit (Submitted prompt) ;;
          text <- lift (wait_for (run agent prompt)
                                 (request_timeout (settings self))) ;;
          analysis <- lift (_parse_agent_response text) ;;
          let metadata :=
            [ (str "processing_time_ms", PyFloat (processing_time_ms clk));
              (str "model_used", PyStr (model_deployment_name (settings self)));
              (str "content_length", PyInt (len content));
              (str "user_id", PyStr user_id);
              (str "timestamp", PyStr (timestamp clk)) ] in
          sc <- lift (getitem analysis (str "score")) ;;
          oc <- lift (getitem analysis (str "optimized_content")) ;;
          sl <- lift (getitem analysis (str "suggestions")) ;;
          items <- lift (iterate sl) ;;
          suggs <- lift (Res.mapM Suggestion_init items) ;;
          ret (sc, oc, suggs, metadata)
      end)
     (fun e =>
        match e with
        | TimeoutError => raise (ValueError TIMEOUT_MESSAGE)
        | _ => raise e
        end))%M.

(** *** The singleton *)

(** [get_agent]: the instance is stored before [initialize] runs, so a
    failed initialisation leaves an instance without a session. *)
Definition get_agent (w : World) : M ResumeAnalyzerAgent :=
  fun st =>
    match _agent_instance st with
    | Some a => (Return a, st)
    | None =>
        match connect w with
        | Return session =>
            let a := {| settings := get_settings w; _agent := Some session |} in
            (Return a, {| _agent_instance := Some a; trace := trace st |})
        | Raise e =>
            let a := {| settings := get_settings w; _agent := None |} in
            (Raise e, {| _agent_instance := Some a; trace := trace st |})
        end
    end.

Definition cleanup_agent : M unit := set_instance None.

End Agent.

(* ================================================================== *)
(** ** main.py *)
(* ================================================================== *)

Module Main.
Import Config Models Agent.

Inductive http_body : Type :=
| AnalysisBody (r : ResumeAnalysisResponse)
| DetailBody (detail : pystr)
| ValidationErrorsBody (errors : pystr).

Record http_response : Type := {
  status_code : Z;
  body : http_body
}.

Definition HTTP_200_OK : Z := 200.
Definition HTTP_400_BAD_REQUEST : Z := 400.
Definition HTTP_422_UNPROCESSABLE_ENTITY : Z := 422.
Definition HTTP_500_INTERNAL_SERVER_ERROR : Z := 500.

(** The handler of [POST /analyze], entered with a validated request. *)
Definition analyze_resume (w : World) (request : ResumeAnalysisRequest)
    : M http_response :=
  try_except
    (agent <- get_agent w ;;
     r <- Agent.analyze_resume agent (clock w)
            (content request) (user_id request) ;;
     let '(sc, oc, suggs, metadata) := r in
     response <- lift (ResumeAnalysisResponse_init sc oc suggs metadata) ;;
     ret {| status_code := HTTP_200_OK; body := AnalysisBody response |})%M
    (fun e =>
       if is_ValueError e then
         ret {| status_code := HTTP_400_BAD_REQUEST;
                body := DetailBody (exn_str e) |}
       else
         ret {| status_code := HTTP_500_INTERNAL_SERVER_ERROR;
                body := DetailBody
                  (str "An error occurred during resume analysis. Please try again later.") |}).

(** [POST /analyze] as the framework serves it: the body is validated
    against the request model before the handler is entered, and, as the
    application registers no handler for request-validation errors, a
    rejected body is answered by the framework's own handler, with
    status 422.  What the framework does after the handler has answered
    (the encoding of the response, and the handler of last resort when the
    encoding fails) is not part of it. *)
Definition post_analyze (w : World) (request_body : pyval) : M http_response :=
  match ResumeAnalysisRequest_validate request_body with
  | Raise e =>
      ret {| status_code := HTTP_422_UNPROCESSABLE_ENTITY;
             body := ValidationErrorsBody (exn_str e) |}
  | Return request => analyze_resume w request
  end.

(** The process before start-up. *)
Definition initial_state : State :=
  {| _agent_instance := None; trace := [] |}.

(** The start-up part of [lifespan]: the agent is created and initialised;
    a failure stops the application. *)
Definition lifespan_startup (w : World) : result State :=
  match get_agent w initial_state with
  | (Return _, st) => Return st
  | (Raise e, _) => Raise e
  end.

(** A world for examples: the default settings, and a session that answers
    every prompt with [reply] after [latency] milliseconds. *)
Definition example_world (reply : pystr) (latency : Z) : World :=
  {| get_settings := default_settings;
     connect := Return {| run := fun _ => {| latency_ms := latency;
                                              outcome := Return reply |} |};
     clock := {| processing_time_ms := float_of_Z 1200;
                 timestamp := str "2024-01-01T00:00:00" |} |}.

(** The state of that world once started. *)
Definition example_state (reply : pystr) (latency : Z) : State :=
  snd (get_agent (example_world reply latency) initial_state).

(** A request body with the two fields. *)
Definition request_body (content_ user_id_ : pystr) : pyval :=
  PyDict [(str "content", PyStr content_); (str "user_id", PyStr user_id_)].

End Main.

(* ================================================================== *)
(** ** The rest of the service: the health check *)
(* ================================================================== *)

Module Service.
Import Config Models Agent Main.

(** [HealthCheckResponse] of models.py *)
Record HealthCheckResponse : Type := {
  status : pystr;
  version : pystr;
  ai_foundry_connected : bool
}.

(** The settings the HTTP surface shows. *)
Record ApiSettings : Type := {
  service_name : pystr;
  api_version : pystr
}.

Definition default_api_settings : ApiSettings :=
  {| service_name := str "cv-analyzer-ai-service";
     api_version := str "1.0.0" |}.

(** [agent._agent is not None] *)
Definition has_session (a : ResumeAnalyzerAgent) : bool :=
  match _agent a with
  | Some _ => true
  | None => false
  end.

(** [GET /health] *)
Definition health_check (w : World) (api : ApiSettings) : M HealthCheckResponse :=
  (ai_connected <-
     try_except (agent <- get_agent w ;; ret (has_session agent))
                (fun _ => ret false) ;;
   ret {| status := if ai_connected then str "healthy" else str "degraded";
          version := api_version api;
          ai_foundry_connected := ai_connected |})%M.

(** The message of the 500 that [POST /analyze] answers. *)
Definition ANALYSIS_ERROR_MESSAGE : pystr :=
  str "An error occurred during resume analysis. Please try again later.".

End Service.

(* ================================================================== *)
(** * Properties *)
(* ================================================================== *)

(** ** Strings *)

Section StringFacts.

Lemma len_nonneg (s : pystr) : 0 <= len s.
Proof. unfold len. lia. Qed.

Lemma len_app (a b : pystr) : len (a ++ b) = len a + len b.
Proof. unfold len. rewrite length_app. lia. Qed.

Lemma startswith_app (p s : pystr) : startswith p (p ++ s) = true.
Proof.
  induction p as [|x p IH]; simpl; [reflexivity|].
  now rewrite N.eqb_refl, IH.
Qed.

Lemma startswith_len (p s : pystr) :
  startswith p s = true -> len p <= len s.
Proof.
  revert s. induction p as [|x p IH]; intros [|y s] H; simpl in *;
    unfold len in *; simpl; try lia; try discriminate.
  apply andb_true_iff in H as [_ H]. apply IH in H. lia.
Qed.



Lemma find_from (sub s : pystr) (start : Z) :
  0 <= start <= len s ->
  find sub s start = find_aux sub (skipn (Z.to_nat start) s) start.
Proof.
  intros H. unfold find.
  destruct (start <? 0) eqn:E1; [apply Z.ltb_lt in E1; lia|].
  destruct (len s <? start) eqn:E2; [apply Z.ltb_lt in E2; lia|].
  reflexivity.
Qed.

(** A slice whose bounds lie in the string. *)
Lemma slice_inside (s : pystr) (lo hi : Z) :
  0 <= lo <= len s -> 0 <= hi <= len s ->
  slice s lo hi = firstn (Z.to_nat (hi - lo)) (skipn (Z.to_nat lo) s).
Proof.
  intros Hlo Hhi. unfold slice, adjust_index.
  destruct (lo <? 0) eqn:E1; [apply Z.ltb_lt in E1; lia|].
  destruct (hi <? 0) eqn:E2; [apply Z.ltb_lt in E2; lia|].
  now rewrite !Z.min_l by lia.
Qed.

(** [s[:n]] is the first [n] characters. *)
Lemma slice_to_firstn (s : pystr) (n : Z) :
  0 <= n -> slice_to s n = firstn (Z.to_nat n) s.
Proof.
  intros Hn. unfold slice_to, slice, adjust_index. simpl (0 <? 0).
  destruct (n <? 0) eqn:E; [apply Z.ltb_lt in E; lia|].
  pose proof (len_nonneg s) as Hl.
  rewrite (Z.min_l 0) by lia. simpl skipn. rewrite Z.sub_0_r.
  destruct (Z.min_spec n (len s)) as [[H1 ->]|[H1 ->]]; [reflexivity|].
  unfold len in *. rewrite Nat2Z.id.
  rewrite firstn_all. symmetry. apply firstn_all2. lia.
Qed.


Lemma isspace_not_backtick (c : char) : isspace c = true -> c <> 96%N.
Proof. intros H ->. discriminate H. Qed.

Lemma lstrip_spaces (w s : pystr) :
  forallb isspace w = true -> lstrip (w ++ s) = lstrip s.
Proof.
  induction w as [|c w IH]; simpl; [reflexivity|].
  intros H. apply andb_true_iff in H as [Hc Hw]. now rewrite Hc, IH.
Qed.

Lemma lstrip_all_spaces (w : pystr) :
  forallb isspace w = true -> lstrip w = [].
Proof.
  intros H. rewrite <- (app_nil_r w). now rewrite lstrip_spaces.
Qed.

Lemma rstrip_spaces (s w : pystr) :
  forallb isspace w = true -> rstrip (s ++ w) = rstrip s.
Proof.
  intros H. unfold rstrip. rewrite rev_app_distr, lstrip_spaces; [reflexivity|].
  rewrite forallb_forall in *. intros x Hx. apply H. now apply in_rev.
Qed.

Lemma lstrip_app_spaces (s w : pystr) :
  forallb isspace w = true ->
  (lstrip s = [] /\ lstrip (s ++ w) = []) \/
  (lstrip (s ++ w) = lstrip s ++ w).
Proof.
  intros H. induction s as [|c s IH]; simpl.
  - left. split; [reflexivity|now apply lstrip_all_spaces].
  - destruct (isspace c); [exact IH|now right].
Qed.

(** Blanks around a text do not change what [strip] returns. *)
Lemma strip_padded (w1 s w2 : pystr) :
  forallb isspace w1 = true -> forallb isspace w2 = true ->
  strip (w1 ++ s ++ w2) = strip s.
Proof.
  intros H1 H2. unfold strip. rewrite lstrip_spaces by assumption.
  destruct (lstrip_app_spaces s w2 H2) as [[E1 E2]| E].
  - now rewrite E1, E2.
  - rewrite E. now apply rstrip_spaces.
Qed.


End StringFacts.

(** ** The decoder uses up no fuel *)

Section DecoderFuel.
Import Json.

Lemma skip_ws_length (s : pystr) :
  (List.length (skip_ws s) <= List.length s)%nat.
Proof.
  induction s as [|c t IH]; simpl; [lia|].
  destruct (is_ws c); simpl; lia.
Qed.

Lemma skip_ws_cons_length (s : pystr) (c : char) (t : pystr) :
  skip_ws s = c :: t -> (List.length t < List.length s)%nat.
Proof.
  intros H. pose proof (skip_ws_length s) as L. rewrite H in L. simpl in L. lia.
Qed.

Lemma digits_span_length (s : pystr) (acc count : Z) :
  (List.length (snd (digits_span s acc count)) <= List.length s)%nat.
Proof.
  revert acc count. induction s as [|c t IH]; intros acc count; simpl; [lia|].
  destruct (is_digit c); simpl; [|lia].
  specialize (IH (acc * 10 + digit_val c) (count + 1)). lia.
Qed.

Lemma scanstring_length (s acc v r : pystr) :
  scanstring s acc = Some (v, r) -> (List.length r < List.length s)%nat.
Proof.
  remember (List.length s) as n eqn:Hn.
  revert s acc Hn. induction n as [n IH] using lt_wf_ind.
  intros s acc Hn H. destruct s as [|c t]; [discriminate|].
  cbn [scanstring] in H.
  assert (Step : forall t' acc', (List.length t' < n)%nat ->
            scanstring t' acc' = Some (v, r) -> (List.length r < n)%nat).
  { intros t' acc' Hlt H'.
    specialize (IH (List.length t') Hlt t' acc' eq_refl H'). lia. }
  subst n. cbn [List.length] in *.
  destruct (N.eqb c QUOTE).
  { injection H as _ <-. lia. }
  destruct (N.eqb c BACKSLASH).
  - destruct t as [|e t1]; [discriminate|]. cbn [List.length] in *.
    destruct (ch_is "u" e).
    + destruct t1 as [|h1 [|h2 [|h3 [|h4 t2]]]]; try discriminate.
      cbn [List.length] in *.
      destruct (hex4 h1 h2 h3 h4) as [uni|]; [|discriminate].
      destruct t2 as [|b [|u t3]];
        try (apply Step in H; [lia|cbn [List.length]; lia]).
      cbn [List.length] in *.
      destruct (is_high_surrogate uni && N.eqb b BACKSLASH && ch_is "u" u);
        [|apply Step in H; [lia|cbn [List.length]; lia]].
      destruct t3 as [|g1 [|g2 [|g3 [|g4 t4]]]]; try discriminate.
      cbn [List.length] in *.
      destruct (hex4 g1 g2 g3 g4) as [uni2|]; [|discriminate].
      destruct (is_low_surrogate uni2);
        apply Step in H; try lia; cbn [List.length]; lia.
    + destruct (unescape e); [|discriminate].
      apply Step in H; [lia|lia].
  - destruct (N.ltb c 32); [discriminate|].
    apply Step in H; [lia|lia].
Qed.

Lemma match_number_length (s r : pystr) (v : pyval) :
  match_number s = Some (v, r) -> (List.length r < List.length s)%nat.
Proof.
  unfold match_number. intros H.
  set (p := match s with
            | c :: t => if ch_is "-" c then (true, t) else (false, s)
            | [] => (false, s)
            end) in H.
  assert (Hp : (List.length (snd p) <= List.length s)%nat).
  { subst p. destruct s as [|c t]; [simpl; lia|].
    destruct (ch_is "-" c); simpl; lia. }
  destruct p as [neg s1]. cbn [snd] in Hp.
  destruct s1 as [|c t]; [discriminate|]. cbn [List.length] in Hp.
  destruct (is_digit c); [|discriminate].
  set (q := if ch_is "0" c then (0, 1, t) else digits_span t (digit_val c) 1) in H.
  assert (Hq : (List.length (snd q) <= List.length t)%nat).
  { subst q. destruct (ch_is "0" c); [simpl; lia|apply digits_span_length]. }
  destruct q as [[ip n0] s2]. cbn [snd] in Hq.
  set (f := match s2 with
            | d :: f :: _ =>
                if ch_is "." d && is_digit f then digits_span (tl s2) ip 0
                else (ip, 0, s2)
            | _ => (ip, 0, s2)
            end) in H.
  assert (Hf : (List.length (snd f) <= List.length s2)%nat).
  { subst f. destruct s2 as [|d [|f0 t']]; try (simpl; lia).
    destruct (ch_is "." d && is_digit f0); [|simpl; lia].
    pose proof (digits_span_length (tl (d :: f0 :: t')) ip 0) as L.
    cbn [tl List.length] in *.
    eapply Nat.le_trans; [exact L|apply Nat.le_succ_diag_r]. }
  destruct f as [[mant nfrac] s3]. cbn [snd] in Hf.
  set (x := match s3 with
            | e :: t3 =>
                if ch_is "e" e || ch_is "E" e then
                  let '(eneg, t4) :=
                    match t3 with
                    | sg :: t' =>
                        if ch_is "-" sg then (true, t')
                        else if ch_is "+" sg then (false, t')
                        else (false, t3)
                    | [] => (false, t3)
                    end in
                  let '(ev, cnt, t5) := digits_span t4 0 0 in
                  if 0 <? cnt then ((if eneg then - ev else ev), cnt, t5)
                  else (0, 0, s3)
                else (0, 0, s3)
            | [] => (0, 0, s3)
            end) in H.
  assert (Hx : (List.length (snd x) <= List.length s3)%nat).
  { subst x. destruct s3 as [|e t3]; [simpl; lia|].
    destruct (ch_is "e" e || ch_is "E" e); [|simpl; lia].
    set (y := match t3 with
              | sg :: t' =>
                  if ch_is "-" sg then (true, t')
                  else if ch_is "+" sg then (false, t')
                  else (false, t3)
              | [] => (false, t3)
              end).
    assert (Hy : (List.length (snd y) <= List.length t3)%nat).
    { subst y. destruct t3 as [|sg t']; [simpl; lia|].
      destruct (ch_is "-" sg); [simpl; lia|].
      destruct (ch_is "+" sg); simpl; lia. }
    destruct y as [eneg t4]. cbn [snd] in Hy.
    pose proof (digits_span_length t4 0 0) as L.
    destruct (digits_span t4 0 0) as [[ev cnt] t5]. cbn [snd] in L.
    destruct (0 <? cnt); cbn [snd List.length]; lia. }
  destruct x as [[ex nexp] s4]. cbn [snd] in Hx.
  destruct ((0 <? nfrac) || (0 <? nexp)); injection H as _ <-; lia.
Qed.

Lemma literal_length (p s : pystr) :
  p <> [] -> startswith p s = true ->
  (List.length (skipn (List.length p) s) < List.length s)%nat.
Proof.
  intros Hp Hs. apply startswith_len in Hs. unfold len in Hs.
  rewrite length_skipn. destruct p; [congruence|]. cbn [List.length] in *. lia.
Qed.

(** With fuel above twice the length of the text, no function of the
    decoder runs out of fuel, and what is left after a value is shorter
    than the text. *)
Lemma decoder_fuel (fuel : nat) :
  (forall s, (2 * List.length s < fuel)%nat ->
     scan_once fuel s <> Exhausted
     /\ forall v r, scan_once fuel s = Parsed v r ->
                    (List.length r < List.length s)%nat)
  /\ (forall s pairs, (2 * List.length s < fuel)%nat ->
     object_loop fuel s pairs <> Exhausted
     /\ forall v r, object_loop fuel s pairs = Parsed v r ->
                    (List.length r < List.length s)%nat)
  /\ (forall s values, (2 * List.length s + 1 < fuel)%nat ->
     array_loop fuel s values <> Exhausted
     /\ forall v r, array_loop fuel s values = Parsed v r ->
                    (List.length r < List.length s)%nat).
Proof.
  induction fuel as [|f (IHs & IHo & IHa)].
  { repeat split; intros; lia. }
  split; [|split].
  - intros s Hf. cbn [scan_once].
    destruct s as [|c t]; [split; [discriminate|discriminate]|].
    cbn [List.length] in Hf.
    destruct (N.eqb c QUOTE).
    { destruct (scanstring t []) as [[v r]|] eqn:E; split; try discriminate.
      intros v' r' H. injection H as _ <-.
      apply scanstring_length in E. cbn [List.length]. lia. }
    destruct (ch_is "{" c).
    { destruct (skip_ws t) as [|c1 t1] eqn:E; [split; discriminate|].
      apply skip_ws_cons_length in E.
      destruct (ch_is "}" c1).
      { split; [discriminate|]. intros v r H. injection H as _ <-.
        cbn [List.length]. lia. }
      destruct (N.eqb c1 QUOTE); [|split; discriminate].
      destruct (IHo t1 [] ltac:(lia)) as [H1 H2].
      split; [exact H1|]. intros v r H. apply H2 in H. cbn [List.length]. lia. }
    destruct (ch_is "[" c).
    { destruct (skip_ws t) as [|c1 t1] eqn:E; [split; discriminate|].
      pose proof (skip_ws_length t) as L. rewrite E in L.
      destruct (ch_is "]" c1).
      { split; [discriminate|]. intros v r H. injection H as _ <-.
        cbn [List.length] in *. lia. }
      destruct (IHa (c1 :: t1) [] ltac:(lia)) as [H1 H2].
      split; [exact H1|]. intros v r H. apply H2 in H. cbn [List.length] in *. lia. }
    destruct (startswith (str "null") (c :: t)) eqn:E1.
    { split; [discriminate|]. intros v r H. injection H as _ <-.
      exact (literal_length (str "null") (c :: t) ltac:(discriminate) E1). }
    destruct (startswith (str "true") (c :: t)) eqn:E2.
    { split; [discriminate|]. intros v r H. injection H as _ <-.
      exact (literal_length (str "true") (c :: t) ltac:(discriminate) E2). }
    destruct (startswith (str "false") (c :: t)) eqn:E3.
    { split; [discriminate|]. intros v r H. injection H as _ <-.
      exact (literal_length (str "false") (c :: t) ltac:(discriminate) E3). }
    destruct (match_number (c :: t)) as [[v r]|] eqn:E4.
    { split; [discriminate|]. intros v' r' H. injection H as _ <-.
      now apply match_number_length in E4. }
    destruct (startswith (str "NaN") (c :: t)) eqn:E5.
    { split; [discriminate|]. intros v r H. injection H as _ <-.
      exact (literal_length (str "NaN") (c :: t) ltac:(discriminate) E5). }
    destruct (startswith (str "Infinity") (c :: t)) eqn:E6.
    { split; [discriminate|]. intros v r H. injection H as _ <-.
      exact (literal_length (str "Infinity") (c :: t) ltac:(discriminate) E6). }
    destruct (startswith (str "-Infinity") (c :: t)) eqn:E7.
    { split; [discriminate|]. intros v r H. injection H as _ <-.
      exact (literal_length (str "-Infinity") (c :: t) ltac:(discriminate) E7). }
    split; discriminate.
  - intros s pairs Hf. cbn [object_loop].
    destruct (scanstring s []) as [[key r1]|] eqn:E; [|split; discriminate].
    apply scanstring_length in E.
    destruct (skip_ws r1) as [|c r2] eqn:E1; [split; discriminate|].
    apply skip_ws_cons_length in E1.
    destruct (ch_is ":" c); [|split; discriminate].
    pose proof (skip_ws_length r2) as L2.
    destruct (IHs (skip_ws r2) ltac:(lia)) as [H1 H2].
    destruct (scan_once f (skip_ws r2)) as [v r3| |] eqn:E2;
      [|split; discriminate|congruence].
    specialize (H2 v r3 eq_refl).
    destruct (skip_ws r3) as [|c3 r4] eqn:E3; [split; discriminate|].
    apply skip_ws_cons_length in E3.
    destruct (ch_is "}" c3).
    { split; [discriminate|]. intros v' r' H. injection H as _ <-. lia. }
    destruct (ch_is "," c3); [|split; discriminate].
    destruct (skip_ws r4) as [|c5 r5] eqn:E4; [split; discriminate|].
    apply skip_ws_cons_length in E4.
    destruct (N.eqb c5 QUOTE); [|split; discriminate].
    destruct (IHo r5 (pairs ++ [(key, v)]) ltac:(lia)) as [H3 H4].
    split; [exact H3|]. intros v' r' H. apply H4 in H. lia.
  - intros s values Hf. cbn [array_loop].
    destruct (IHs s ltac:(lia)) as [H1 H2].
    destruct (scan_once f s) as [v r1| |] eqn:E; [|split; discriminate|congruence].
    specialize (H2 v r1 eq_refl).
    destruct (skip_ws r1) as [|c r2] eqn:E1; [split; discriminate|].
    apply skip_ws_cons_length in E1.
    destruct (ch_is "]" c).
    { split; [discriminate|]. intros v' r' H. injection H as _ <-. lia. }
    destruct (ch_is "," c); [|split; discriminate].
    pose proof (skip_ws_length r2) as L2.
    destruct (IHa (skip_ws r2) (values ++ [v]) ltac:(lia)) as [H3 H4].
    split; [exact H3|]. intros v' r' H. apply H4 in H. lia.
Qed.

(** [json.loads] either returns a value or raises [JSONDecodeError]. *)
Lemma loads_total (s : pystr) :
  (exists v, loads s = Return v) \/ loads s = Raise JSONDecodeError.
Proof.
  unfold loads. destruct (startswith [65279%N] s); [now right|].
  pose proof (skip_ws_length s) as L.
  destruct (proj1 (decoder_fuel (S (2 * List.length s))) (skip_ws s) ltac:(lia))
    as [H _].
  destruct (scan_once (S (2 * List.length s)) (skip_ws s)) as [v r| |];
    [|now right|congruence].
  destruct (skip_ws r); [left; now exists v|now right].
Qed.

End DecoderFuel.

(** ** Fence markers *)

Section FenceFacts.
Import Agent.

Lemma FENCE_chars : FENCE = [96%N; 96%N; 96%N].
Proof. reflexivity. Qed.

Lemma FENCE_JSON_chars : FENCE_JSON = FENCE ++ str "json".
Proof. reflexivity. Qed.

Lemma startswith_app_l (p q s : pystr) :
  startswith (p ++ q) s = true -> startswith p s = true.
Proof.
  revert s. induction p as [|x p IH]; intros s H; simpl in *; [reflexivity|].
  destruct s as [|y s]; [discriminate|].
  apply andb_true_iff in H as [H1 H2]. rewrite H1. simpl. now apply IH.
Qed.

(** A text without a fence has no tagged fence either. *)
Lemma no_fence_no_tagged_fence (s : pystr) :
  contains FENCE s = false -> contains FENCE_JSON s = false.
Proof.
  induction s as [|c t IH]; intros H.
  - reflexivity.
  - cbn [contains] in *. apply orb_false_iff in H as [H1 H2].
    apply orb_false_iff. split; [|now apply IH].
    destruct (startswith FENCE_JSON (c :: t)) eqn:E; [|reflexivity].
    rewrite FENCE_JSON_chars in E. apply startswith_app_l in E. congruence.
Qed.

(** The search for a fence passes over characters that are no backticks. *)
Lemma find_fence_skip (w rest : pystr) (i : Z) :
  (forall c, In c w -> c <> 96%N) ->
  find_aux FENCE (w ++ rest) i = find_aux FENCE rest (i + len w).
Proof.
  revert i. induction w as [|c w IH]; intros i H.
  - simpl. f_equal. unfold len. simpl. lia.
  - change ((c :: w) ++ rest) with (c :: (w ++ rest)).
    unfold find_aux at 1. fold find_aux.
    assert (Hc : N.eqb 96 c = false).
    { apply N.eqb_neq. intros E. apply (H c); [now left|now symmetry]. }
    rewrite FENCE_chars at 1. cbn [startswith]. rewrite Hc. cbn [andb].
    rewrite IH by (intros x Hx; apply H; now right).
    f_equal. unfold len. cbn [List.length]. lia.
Qed.

(** A text that has no fence and does not end in a backtick cannot start
    a fence that its continuation completes. *)
Lemma no_fence_across (s rest : pystr) :
  s <> [] -> startswith FENCE s = false -> last s 0%N <> 96%N ->
  startswith FENCE (s ++ rest) = false.
Proof.
  rewrite FENCE_chars.
  destruct s as [|a [|b [|c t]]]; intros Hne Hs Hl;
    cbn [startswith app last] in *.
  - congruence.
  - destruct (N.eqb_spec 96 a); [congruence|reflexivity].
  - destruct (N.eqb_spec 96 b); [congruence|].
    now rewrite andb_false_r.
  - exact Hs.
Qed.

(** The search for a fence passes over such a text. *)
Lemma find_fence_pass (s rest : pystr) (i : Z) :
  contains FENCE s = false -> last s 0%N <> 96%N ->
  find_aux FENCE (s ++ rest) i = find_aux FENCE rest (i + len s).
Proof.
  revert i. induction s as [|c t IH]; intros i Hc Hl.
  - simpl. f_equal. unfold len. simpl. lia.
  - cbn [contains] in Hc. apply orb_false_iff in Hc as [H1 H2].
    change ((c :: t) ++ rest) with (c :: (t ++ rest)).
    unfold find_aux at 1. fold find_aux.
    change (c :: (t ++ rest)) with ((c :: t) ++ rest) at 1.
    rewrite (no_fence_across (c :: t) rest) by (assumption || discriminate).
    rewrite IH.
    + f_equal. unfold len. cbn [List.length]. lia.
    + assumption.
    + destruct t as [|d t']; [cbn; discriminate|exact Hl].
Qed.

Lemma find_fence_here (rest : pystr) (i : Z) :
  find_aux FENCE (FENCE ++ rest) i = i.
Proof.
  destruct rest; reflexivity.
Qed.

Lemma spaces_no_backtick (w : pystr) :
  forallb isspace w = true -> forall c, In c w -> c <> 96%N.
Proof.
  intros H c Hc. rewrite forallb_forall in H.
  apply isspace_not_backtick. now apply H.
Qed.

(** Where the closing fence of a tagged block is found. *)
Lemma closing_fence_position (w1 s w2 rest : pystr) :
  forallb isspace w1 = true -> forallb isspace w2 = true ->
  contains FENCE s = false -> last s 0%N <> 96%N ->
  find FENCE (FENCE_JSON ++ w1 ++ s ++ w2 ++ FENCE ++ rest) 7
  = 7 + len (w1 ++ s ++ w2).
Proof.
  intros H1 H2 Hs Hl.
  rewrite find_from.
  - change (skipn (Z.to_nat 7) (FENCE_JSON ++ w1 ++ s ++ w2 ++ FENCE ++ rest))
      with (w1 ++ s ++ w2 ++ FENCE ++ rest).
    rewrite find_fence_skip by now apply spaces_no_backtick.
    rewrite find_fence_pass by assumption.
    rewrite find_fence_skip by now apply spaces_no_backtick.
    rewrite find_fence_here. rewrite !len_app. lia.
  - rewrite len_app. change (len FENCE_JSON) with 7.
    pose proof (len_nonneg (w1 ++ s ++ w2 ++ FENCE ++ rest)). lia.
Qed.

End FenceFacts.

(* ================================================================== *)
(** ** The response normaliser *)
(* ================================================================== *)

Section Normalizer.
Import Agent.







(** C2 (as stated) fails: an object whose text holds fence markers is
    decoded differently when it is wrapped. *)
Lemma C2_counterexample :
  let json :=
    quoted "{'score':1,'optimized_content':'```{}```','suggestions':[]}" in
  (exists d, Json.loads json = Return (PyDict d))
  /\ _parse_agent_response (FENCE_JSON ++ NL ++ json ++ NL ++ FENCE)
     = Return FALLBACK
  /\ _parse_agent_response json
     = Raise (ValueError (str "Missing required field: score"))
  /\ _parse_agent_response (FENCE_JSON ++ NL ++ json ++ NL ++ FENCE)
     <> _parse_agent_response json.
Proof.
  intros json. split; [|split; [|split]].
  - eexists. vm_compute. reflexivity.
  - vm_compute. reflexivity.
  - vm_compute. reflexivity.
  - vm_compute. discriminate.
Qed.

(** C2 (amended).  For a JSON text that holds no fence marker and does
    not end in a backtick (no JSON object does), wrapped in a fenced
    block with the [json] tag and surrounded there by blanks, the
    normaliser returns what it returns for the text alone; what follows
    the closing fence is ignored. *)
Theorem C2_fenced_same_as_unwrapped (w1 json w2 rest : pystr) :
  forallb isspace w1 = true -> forallb isspace w2 = true ->
  contains FENCE json = false -> last json 0%N <> 96%N ->
  extract_json_text (FENCE_JSON ++ w1 ++ json ++ w2 ++ FENCE ++ rest)
    = extract_json_text json
  /\ _parse_agent_response (FENCE_JSON ++ w1 ++ json ++ w2 ++ FENCE ++ rest)
    = _parse_agent_response json.
Proof.
  intros H1 H2 Hc Hl.
  assert (He : extract_json_text (FENCE_JSON ++ w1 ++ json ++ w2 ++ FENCE ++ rest)
               = extract_json_text json).
  { unfold extract_json_text at 2.
    rewrite (no_fence_no_tagged_fence json Hc), Hc.
    unfold extract_json_text.
    assert (Hs : contains FENCE_JSON
                   (FENCE_JSON ++ w1 ++ json ++ w2 ++ FENCE ++ rest) = true).
    { destruct (FENCE_JSON ++ w1 ++ json ++ w2 ++ FENCE ++ rest) eqn:E;
        cbn [contains]; rewrite <- E, startswith_app; reflexivity. }
    rewrite Hs.
    assert (Hf : find FENCE_JSON
                   (FENCE_JSON ++ w1 ++ json ++ w2 ++ FENCE ++ rest) 0 = 0).
    { rewrite find_from.
      - change (skipn (Z.to_nat 0) ?x) with x.
        destruct (FENCE_JSON ++ w1 ++ json ++ w2 ++ FENCE ++ rest) eqn:E;
          cbn [find_aux]; rewrite <- E, startswith_app; reflexivity.
      - pose proof (len_nonneg (FENCE_JSON ++ w1 ++ json ++ w2 ++ FENCE ++ rest)).
        lia. }
    rewrite Hf. change (0 + 7) with 7.
    rewrite closing_fence_position by assumption.
    rewrite slice_inside.
    - replace (7 + len (w1 ++ json ++ w2) - 7) with (len (w1 ++ json ++ w2)) by lia.
      change (skipn (Z.to_nat 7) (FENCE_JSON ++ w1 ++ json ++ w2 ++ FENCE ++ rest))
        with (w1 ++ json ++ w2 ++ FENCE ++ rest).
      replace (w1 ++ json ++ w2 ++ FENCE ++ rest)
        with ((w1 ++ json ++ w2) ++ FENCE ++ rest)
        by (now rewrite <- !app_assoc).
      unfold len. rewrite Nat2Z.id, firstn_app, Nat.sub_diag, firstn_all.
      cbn [firstn]. rewrite app_nil_r. now apply strip_padded.
    - rewrite len_app. change (len FENCE_JSON) with 7.
      pose proof (len_nonneg (w1 ++ json ++ w2 ++ FENCE ++ rest)). lia.
    - replace (w1 ++ json ++ w2 ++ FENCE ++ rest)
        with ((w1 ++ json ++ w2) ++ FENCE ++ rest)
        by (now rewrite <- !app_assoc).
      rewrite (len_app FENCE_JSON), (len_app (w1 ++ json ++ w2)).
      change (len FENCE_JSON) with 7.
      pose proof (len_nonneg (w1 ++ json ++ w2)).
      pose proof (len_nonneg (FENCE ++ rest)). lia. }
  split; [exact He|].
  unfold _parse_agent_response. now rewrite He.
Qed.

(** The scenario of the specification: a wrapped object with score 150. *)
Lemma C2_fenced_same_as_unwrapped_witness :
  let json := quoted "{'score':150,'optimized_content':'X','suggestions':[]}" in
  _parse_agent_response (FENCE_JSON ++ NL ++ json ++ NL ++ FENCE ++ [])
    = _parse_agent_response json
  /\ _parse_agent_response json
    = Return (PyDict [ (str "score", PyInt 100);
                       (str "optimized_content", PyStr (str "X"));
                       (str "suggestions", PyList []) ]).
Proof.
  intros json. split.
  - apply (C2_fenced_same_as_unwrapped NL json NL []).
    + reflexivity.
    + reflexivity.
    + reflexivity.
    + vm_compute. discriminate.
  - vm_compute. reflexivity.
Defined.

End Normalizer.


(** ** Required fields, the clamp and the default analysis *)

Section NormalizerFields.
Import Agent Models.

Lemma str_eqb_refl (a : pystr) : str_eqb a a = true.
Proof.
  induction a as [|x a IH]; simpl; [reflexivity|].
  now rewrite N.eqb_refl.
Qed.

Lemma dict_get_set_same (k : pystr) (v : pyval) (d : pydict) :
  dict_get k (dict_set k v d) = Some v.
Proof.
  induction d as [|[k' v'] d IH]; simpl.
  - now rewrite str_eqb_refl.
  - destruct (str_eqb k k') eqn:E; simpl; rewrite E; [reflexivity|exact IH].
Qed.

Lemma dict_mem_get (k : pystr) (d : pydict) (v : pyval) :
  dict_get k d = Some v -> dict_mem k d = true.
Proof. unfold dict_mem. now intros ->. Qed.

(** The loop over the required fields, on a dictionary. *)
Lemma check_required_dict (d : pydict) :
  check_required required_fields (PyDict d) =
  if negb (dict_mem (str "score") d)
  then Raise (ValueError (str "Missing required field: " ++ str "score"))
  else if negb (dict_mem (str "optimized_content") d)
  then Raise (ValueError (str "Missing required field: " ++ str "optimized_content"))
  else if negb (dict_mem (str "suggestions") d)
  then Raise (ValueError (str "Missing required field: " ++ str "suggestions"))
  else Return tt.
Proof.
  unfold required_fields. cbn [check_required py_in Res.bind].
  destruct (dict_mem (str "score") d); [|reflexivity].
  destruct (dict_mem (str "optimized_content") d); [|reflexivity].
  destruct (dict_mem (str "suggestions") d); reflexivity.
Qed.

(** C1 (as stated) fails: a reply that decodes to an object without
    [optimized_content] and [suggestions] makes the normaliser raise. *)
Lemma C1_counterexample :
  let reply := quoted "{'score': 50}" in
  Json.loads (extract_json_text reply) = Return (PyDict [(str "score", PyInt 50)])
  /\ dict_mem (str "optimized_content") [(str "score", PyInt 50)] = false
  /\ _parse_agent_response reply
     = Raise (ValueError (str "Missing required field: optimized_content"))
  /\ _parse_agent_response reply <> Return FALLBACK.
Proof.
  intros reply. split; [|split; [|split]].
  - vm_compute. reflexivity.
  - vm_compute. reflexivity.
  - vm_compute. reflexivity.
  - vm_compute. discriminate.
Qed.

(** C1 (amended).  When the extracted text decodes to a JSON object that
    lacks a required field, the normaliser raises [ValueError] with the
    message "Missing required field: " followed by the first missing field
    in the order score, optimized_content, suggestions; it does not return
    the default analysis. *)
Theorem C1_missing_field_raises (reply : pystr) (d : pydict) :
  Json.loads (extract_json_text reply) = Return (PyDict d) ->
  (exists f, In f required_fields /\ dict_mem f d = false) ->
  exists before f after,
    required_fields = before ++ f :: after
    /\ Forall (fun g => dict_mem g d = true) before
    /\ dict_mem f d = false
    /\ _parse_agent_response reply
       = Raise (ValueError (str "Missing required field: " ++ f))
    /\ _parse_agent_response reply <> Return FALLBACK.
Proof.
  intros Hl [f [Hin Hf]].
  unfold _parse_agent_response, parse_or_fallback, parse_json_text.
  rewrite Hl. cbn [Res.bind]. rewrite check_required_dict.
  destruct (dict_mem (str "score") d) eqn:E1.
  2:{ exists [], (str "score"), [str "optimized_content"; str "suggestions"].
      cbn [negb Res.bind]. repeat split; auto; discriminate. }
  destruct (dict_mem (str "optimized_content") d) eqn:E2.
  2:{ exists [str "score"], (str "optimized_content"), [str "suggestions"].
      cbn [negb Res.bind]. repeat split; auto; discriminate. }
  destruct (dict_mem (str "suggestions") d) eqn:E3.
  2:{ exists [str "score"; str "optimized_content"], (str "suggestions"), [].
      cbn [negb Res.bind]. repeat split; auto; discriminate. }
  exfalso. unfold required_fields in Hin.
  destruct Hin as [<-|[<-|[<-|[]]]]; congruence.
Qed.

Lemma C1_missing_field_raises_witness :
  let reply := quoted "{'score': 50, 'suggestions': []}" in
  let d := [(str "score", PyInt 50); (str "suggestions", PyList [])] in
  Json.loads (extract_json_text reply) = Return (PyDict d)
  /\ exists before f after,
      required_fields = before ++ f :: after
      /\ Forall (fun g => dict_mem g d = true) before
      /\ dict_mem f d = false
      /\ _parse_agent_response reply
         = Raise (ValueError (str "Missing required field: " ++ f))
      /\ _parse_agent_response reply <> Return FALLBACK.
Proof.
  intros reply d.
  assert (Hl : Json.loads (extract_json_text reply) = Return (PyDict d))
    by (vm_compute; reflexivity).
  split; [exact Hl|].
  apply (C1_missing_field_raises reply d Hl).
  exists (str "optimized_content"). split.
  - right. left. reflexivity.
  - vm_compute. reflexivity.
Defined.

(** *** The clamp *)

Lemma in_range_int (z : Z) :
  in_range (PyInt z) = Return ((0 <=? z) && (z <=? 100)).
Proof.
  unfold in_range, py_le, num_compare. cbn [as_int Res.bind].
  destruct (Z.compare_spec 0 z), (Z.compare_spec z 100);
    cbn [Res.bind as_int]; f_equal; symmetry;
    try (apply andb_true_iff; split; apply Z.leb_le; lia);
    try (apply andb_false_iff; (left; apply Z.leb_gt; lia) || (right; apply Z.leb_gt; lia)).
Qed.

(** On integers [max(0, min(100, z))] is the mathematical clamp. *)
Lemma clamp_int (z : Z) :
  clamp (PyInt z) = Return (PyInt (Z.max 0 (Z.min 100 z))).
Proof.
  unfold clamp, py_min, py_max, py_lt, py_gt, num_compare.
  cbn [as_int Res.bind].
  destruct (Z.compare_spec z 100) as [E|E|E]; cbn [Res.bind as_int].
  - subst z. reflexivity.
  - destruct (Z.compare_spec z 0) as [E0|E0|E0]; cbn [Res.bind];
      do 2 f_equal; lia.
  - change (100 ?= 0) with Gt. cbn [Res.bind]. do 2 f_equal. lia.
Qed.

(** The clamp of a number never fails and lands in the range. *)
Lemma clamp_number (sc : pyval) :
  is_number sc = true ->
  (exists b, in_range sc = Return b)
  /\ (in_range sc = Return false ->
      exists c, clamp sc = Return c /\ in_range c = Return true).
Proof.
  destruct sc as [| | z | f | | |]; try discriminate; intros _.
  - split.
    + eexists. apply in_range_int.
    + intros _. eexists. split; [apply clamp_int|].
      rewrite in_range_int. f_equal.
      apply andb_true_iff. split; apply Z.leb_le; lia.
  - unfold in_range, clamp, py_le, py_min, py_max, py_lt, py_gt, num_compare.
    cbn [as_int Res.bind option_map].
    destruct (float_Z_compare f 0) as [[| |]|] eqn:E0;
      destruct (float_Z_compare f 100) as [[| |]|] eqn:E1;
      cbn [as_int Res.bind option_map CompOpp];
      rewrite ?E0, ?E1; cbn [as_int Res.bind option_map CompOpp];
      (split; [eexists; reflexivity|]); intros H; try discriminate H;
      try (exists (PyInt 100); split; reflexivity);
      try (exists (PyInt 0); split; reflexivity).
Qed.

Lemma in_range_float (f : pyfloat) :
  in_range (PyFloat f)
  = Return (match float_Z_compare f 0 with
            | Some Gt | Some Eq => true
            | _ => false
            end
            && match float_Z_compare f 100 with
               | Some Lt | Some Eq => true
               | _ => false
               end).
Proof.
  unfold in_range, py_le, num_compare. cbn [as_int Res.bind option_map].
  destruct (float_Z_compare f 0) as [[| |]|];
    cbn [option_map CompOpp Res.bind andb]; try reflexivity;
    destruct (float_Z_compare f 100) as [[| |]|]; reflexivity.
Qed.

Lemma clamp_float (f : pyfloat) :
  in_range (PyFloat f) = Return false ->
  clamp (PyFloat f)
  = Return (PyInt (match float_Z_compare f 100 with
                   | Some Lt => 0
                   | _ => 100
                   end)).
Proof.
  rewrite in_range_float.
  unfold clamp, py_min, py_max, py_lt, py_gt, num_compare.
  cbn [as_int Res.bind option_map].
  destruct (float_Z_compare f 0) as [[| |]|] eqn:E0;
    destruct (float_Z_compare f 100) as [[| |]|] eqn:E1;
    cbn [as_int Res.bind option_map CompOpp andb];
    rewrite ?E0; cbn [Res.bind]; intros H; try discriminate H; reflexivity.
Qed.

(** C3.  When the extracted text decodes to an object with the required
    fields whose score is a number, the normaliser never fails and the
    score it returns lies within [0, 100].  An integer score z within
    [0, 100] leaves the object as it was decoded; outside, the score
    becomes max(0, min(100, z)).  A float score within [0, 100] leaves the
    object as it was decoded; outside, the score becomes 0 when the float
    is below 100 (so below 0) and 100 otherwise (above 100, or a NaN),
    which is what max(0, min(100, score)) evaluates to. *)
Theorem C3_score_clamped_into_range (reply : pystr) (d : pydict) (sc : pyval) :
  Json.loads (extract_json_text reply) = Return (PyDict d) ->
  dict_get (str "score") d = Some sc ->
  dict_mem (str "optimized_content") d = true ->
  dict_mem (str "suggestions") d = true ->
  is_number sc = true ->
  (forall z, sc = PyInt z ->
     (0 <= z <= 100 -> _parse_agent_response reply = Return (PyDict d))
     /\ (~ 0 <= z <= 100 ->
         _parse_agent_response reply
         = Return (PyDict (dict_set (str "score")
                             (PyInt (Z.max 0 (Z.min 100 z))) d))
         /\ 0 <= Z.max 0 (Z.min 100 z) <= 100))
  /\ (forall f, sc = PyFloat f ->
        let within :=
          match float_Z_compare f 0 with
          | Some Gt | Some Eq => true
          | _ => false
          end
          && match float_Z_compare f 100 with
             | Some Lt | Some Eq => true
             | _ => false
             end in
        (within = true -> _parse_agent_response reply = Return (PyDict d))
        /\ (within = false ->
            _parse_agent_response reply
            = Return (PyDict (dict_set (str "score")
                                (PyInt (match float_Z_compare f 100 with
                                        | Some Lt => 0
                                        | _ => 100
                                        end)) d))))
  /\ (exists d' sc',
        _parse_agent_response reply = Return (PyDict d')
        /\ dict_get (str "score") d' = Some sc'
        /\ in_range sc' = Return true).
Proof.
  intros Hl Hs Ho Hg Hn.
  assert (Hp : _parse_agent_response reply
               = match clamp_score (PyDict d) with
                 | Raise JSONDecodeError => Return FALLBACK
                 | r => r
                 end).
  { unfold _parse_agent_response, parse_or_fallback, parse_json_text.
    rewrite Hl. cbn [Res.bind]. rewrite check_required_dict.
    rewrite (dict_mem_get _ _ _ Hs), Ho, Hg. reflexivity. }
  assert (Hcs : clamp_score (PyDict d) =
                Res.bind (in_range sc) (fun ok =>
                  if negb ok
                  then Res.bind (clamp sc) (fun c => setitem (PyDict d) (str "score") c)
                  else Return (PyDict d))).
  { unfold clamp_score, getitem. rewrite Hs. reflexivity. }
  rewrite Hcs in Hp. clear Hcs.
  assert (Hint : forall z, sc = PyInt z ->
     (0 <= z <= 100 -> _parse_agent_response reply = Return (PyDict d))
     /\ (~ 0 <= z <= 100 ->
         _parse_agent_response reply
         = Return (PyDict (dict_set (str "score")
                             (PyInt (Z.max 0 (Z.min 100 z))) d))
         /\ 0 <= Z.max 0 (Z.min 100 z) <= 100)).
  { intros z ->. rewrite in_range_int, clamp_int in Hp. cbn [Res.bind] in Hp.
    split.
    - intros Hz. rewrite Hp.
      replace ((0 <=? z) && (z <=? 100)) with true; [reflexivity|].
      symmetry. apply andb_true_iff. split; apply Z.leb_le; lia.
    - intros Hz. split; [|lia]. rewrite Hp.
      replace ((0 <=? z) && (z <=? 100)) with false; [reflexivity|].
      symmetry. apply andb_false_iff.
      destruct (Z.leb_spec 0 z); [|now left].
      right. apply Z.leb_gt. lia. }
  assert (Hfl : forall f, sc = PyFloat f ->
        let within :=
          match float_Z_compare f 0 with
          | Some Gt | Some Eq => true
          | _ => false
          end
          && match float_Z_compare f 100 with
             | Some Lt | Some Eq => true
             | _ => false
             end in
        (within = true -> _parse_agent_response reply = Return (PyDict d))
        /\ (within = false ->
            _parse_agent_response reply
            = Return (PyDict (dict_set (str "score")
                                (PyInt (match float_Z_compare f 100 with
                                        | Some Lt => 0
                                        | _ => 100
                                        end)) d)))).
  { intros f -> within. subst within. split; intros Hw.
    - rewrite Hp, in_range_float, Hw. reflexivity.
    - assert (Hr : in_range (PyFloat f) = Return false)
        by now rewrite in_range_float, Hw.
      rewrite Hp, Hr. cbn [Res.bind negb]. rewrite (clamp_float f Hr).
      reflexivity. }
  split; [exact Hint|split; [exact Hfl|]].
  destruct sc as [| | z | f | | |]; try discriminate Hn.
  - destruct (Hint z eq_refl) as [H1 H2].
    destruct (Z_le_dec 0 z) as [Ha|Ha]; [destruct (Z_le_dec z 100) as [Hb|Hb]|].
    + exists d, (PyInt z). split; [apply H1; lia|]. split; [exact Hs|].
      rewrite in_range_int. f_equal. apply andb_true_iff.
      split; apply Z.leb_le; lia.
    + destruct (H2 ltac:(lia)) as [H3 H4]. eexists. eexists.
      split; [exact H3|]. split; [apply dict_get_set_same|].
      rewrite in_range_int. f_equal. apply andb_true_iff.
      split; apply Z.leb_le; lia.
    + destruct (H2 ltac:(lia)) as [H3 H4]. eexists. eexists.
      split; [exact H3|]. split; [apply dict_get_set_same|].
      rewrite in_range_int. f_equal. apply andb_true_iff.
      split; apply Z.leb_le; lia.
  - destruct (Hfl f eq_refl) as [H1 H2]. cbv zeta in H1, H2.
    destruct (match float_Z_compare f 0 with
              | Some Gt | Some Eq => true
              | _ => false
              end
              && match float_Z_compare f 100 with
                 | Some Lt | Some Eq => true
                 | _ => false
                 end) eqn:E.
    + exists d, (PyFloat f). split; [now apply H1|]. split; [exact Hs|].
      now rewrite in_range_float, E.
    + eexists. eexists. split; [now apply H2|].
      split; [apply dict_get_set_same|].
      destruct (float_Z_compare f 100) as [[| |]|]; reflexivity.
Qed.

Lemma C3_score_clamped_into_range_witness :
  _parse_agent_response
    (quoted "{'score': -5, 'optimized_content': 'X', 'suggestions': []}")
  = Return (PyDict [ (str "score", PyInt 0);
                     (str "optimized_content", PyStr (str "X"));
                     (str "suggestions", PyList []) ])
  /\ _parse_agent_response
       (quoted "{'score': 150.5, 'optimized_content': 'X', 'suggestions': []}")
     = Return (PyDict [ (str "score", PyInt 100);
                        (str "optimized_content", PyStr (str "X"));
                        (str "suggestions", PyList []) ])
  /\ _parse_agent_response
       (quoted "{'score': 42, 'optimized_content': 'X', 'suggestions': []}")
     = Return (PyDict [ (str "score", PyInt 42);
                        (str "optimized_content", PyStr (str "X"));
                        (str "suggestions", PyList []) ]).
Proof.
  split; [|split].
  - destruct (C3_score_clamped_into_range
             (quoted "{'score': -5, 'optimized_content': 'X', 'suggestions': []}")
             [ (str "score", PyInt (-5));
               (str "optimized_content", PyStr (str "X"));
               (str "suggestions", PyList []) ]
             (PyInt (-5)) ltac:(vm_compute; reflexivity)
             eq_refl eq_refl eq_refl eq_refl) as (Hi & _ & _).
    destruct (Hi (-5) eq_refl) as [_ H].
    exact (proj1 (H ltac:(lia))).
  - destruct (C3_score_clamped_into_range
             (quoted "{'score': 150.5, 'optimized_content': 'X', 'suggestions': []}")
             [ (str "score", PyFloat (float_of_decimal false 1505 (-1)));
               (str "optimized_content", PyStr (str "X"));
               (str "suggestions", PyList []) ]
             (PyFloat (float_of_decimal false 1505 (-1)))
             ltac:(vm_compute; reflexivity)
             eq_refl eq_refl eq_refl eq_refl) as (_ & Hf & _).
    destruct (Hf (float_of_decimal false 1505 (-1)) eq_refl) as [_ H].
    exact (H eq_refl).
  - destruct (C3_score_clamped_into_range
             (quoted "{'score': 42, 'optimized_content': 'X', 'suggestions': []}")
             [ (str "score", PyInt 42);
               (str "optimized_content", PyStr (str "X"));
               (str "suggestions", PyList []) ]
             (PyInt 42) ltac:(vm_compute; reflexivity)
             eq_refl eq_refl eq_refl eq_refl) as (Hi & _ & _).
    destruct (Hi 42 eq_refl) as [H _].
    exact (H ltac:(lia)).
Defined.

End NormalizerFields.


(** ** The default analysis *)

Section Fallback.
Import Agent Models.
Local Open Scope res_scope.

(** C5 (as stated) fails: the text NaN is no JSON (no JSON value begins
    with N), yet the decoder takes it for a float and the normaliser goes
    on to raise a [TypeError] instead of returning the default analysis. *)
Lemma C5_counterexample :
  extract_json_text (str "NaN") = str "NaN"
  /\ Json.rfc_value_start (chr "N") = false
  /\ Json.loads (str "NaN") = Return (PyFloat S754_nan)
  /\ (exists msg, _parse_agent_response (str "NaN") = Raise (TypeError msg))
  /\ _parse_agent_response (str "NaN") <> Return FALLBACK.
Proof.
  split; [reflexivity|]. split; [reflexivity|].
  split; [vm_compute; reflexivity|]. split.
  - eexists. vm_compute. reflexivity.
  - vm_compute. discriminate.
Qed.

(** C5 (amended).  When the decoder raises its decoding error on the
    extracted text (a text within the limits of the interpreter), the
    normaliser returns the default analysis: score 70.0, the "parsing
    failed" message as optimized content, one suggestion of category
    "System" with priority 1, and the fixed reasoning.  The default
    analysis has the required fields, its score lies within [0, 100], its
    suggestion passes the [Suggestion] model with a priority within
    [1, 5], and it passes the response model. *)
Theorem C5_undecodable_reply_gives_fallback (reply : pystr) :
  Json.within_limits (extract_json_text reply) = true ->
  Json.loads (extract_json_text reply) = Raise JSONDecodeError ->
  _parse_agent_response reply = Return FALLBACK
  /\ getitem FALLBACK (str "score") = Return (PyFloat (float_of_Z 70))
  /\ getitem FALLBACK (str "optimized_content")
     = Return (PyStr (str "Analysis parsing failed. Original content returned."))
  /\ getitem FALLBACK (str "suggestions")
     = Return (PyList
         [ PyDict [ (str "category", PyStr (str "System"));
                    (str "description",
                     PyStr (str "Unable to parse AI response. Please try again."));
                    (str "priority", PyInt 1) ] ])
  /\ getitem FALLBACK (str "reasoning")
     = Return (PyStr (str "Response parsing error"))
  /\ check_required required_fields FALLBACK = Return tt
  /\ in_range (PyFloat (float_of_Z 70)) = Return true
  /\ clamp_score FALLBACK = Return FALLBACK
  /\ (exists sg,
        (sl <- getitem FALLBACK (str "suggestions") ;;
         items <- iterate sl ;;
         Res.mapM Suggestion_init items) = Return [sg]
        /\ category sg = str "System"
        /\ 1 <= priority sg <= 5
        /\ priority sg = 1
        /\ ResumeAnalysisResponse_init
             (PyFloat (float_of_Z 70))
             (PyStr (str "Analysis parsing failed. Original content returned."))
             [sg] []
           = Return {| score := float_of_Z 70;
                       optimized_content :=
                         str "Analysis parsing failed. Original content returned.";
                       suggestions := [sg];
                       analysis_metadata := [] |}).
Proof.
  intros _ Hl. split.
  - unfold _parse_agent_response, parse_or_fallback, parse_json_text.
    rewrite Hl. reflexivity.
  - repeat (split; [vm_compute; reflexivity|]).
    eexists. split; [vm_compute; reflexivity|].
    cbn [category priority]. repeat split; try lia.
Qed.

(** The scenario of the specification: a reply that is no JSON at all. *)
Lemma C5_undecodable_reply_gives_fallback_witness :
  Json.within_limits (extract_json_text (str "not json at all")) = true
  /\ Json.loads (extract_json_text (str "not json at all")) = Raise JSONDecodeError
  /\ _parse_agent_response (str "not json at all") = Return FALLBACK.
Proof.
  assert (Hl : Json.loads (extract_json_text (str "not json at all"))
               = Raise JSONDecodeError) by (vm_compute; reflexivity).
  split; [reflexivity|]. split; [exact Hl|].
  exact (proj1 (C5_undecodable_reply_gives_fallback (str "not json at all")
                  eq_refl Hl)).
Defined.

End Fallback.


(** ** The orchestrator *)

Section Orchestrator.
Import Config Models Agent.

Ltac split_results :=
  repeat match goal with
         | |- context [match ?r with Return _ => _ | Raise _ => _ end] =>
             destruct r
         | |- context [match ?e with TimeoutError => _ | _ => _ end] =>
             destruct e
         | |- context [let '(_, _) := ?p in _] => destruct p
         end.

Lemma truncate_spec (st : Settings) (content : pystr) :
  0 <= max_analysis_length st ->
  truncate st content
  = if max_analysis_length st <? len content
    then firstn (Z.to_nat (max_analysis_length st)) content
    else content.
Proof.
  intros H. unfold truncate.
  destruct (max_analysis_length st <? len content); [|reflexivity].
  now apply slice_to_firstn.
Qed.

(** The events of one call: the entry, then the one prompt submitted. *)
Lemma analyze_resume_trace (self : ResumeAnalyzerAgent) (session : ChatAgent)
    (clk : Clock) (content user_id : pystr) (st : State) :
  _agent self = Some session ->
  trace (snd (analyze_resume self clk content user_id st))
  = trace st ++ [ Invoked content user_id;
                  Submitted (make_prompt (truncate (settings self) content)) ].
Proof.
  intros Hs.
  unfold analyze_resume, bind, try_except, emit, lift, ret, raise.
  rewrite Hs. cbn [trace _agent_instance].
  split_results; cbn [snd trace]; now rewrite <- app_assoc.
Qed.

(** C4.  With a configured maximum N >= 0 (10000 by default): a content
    longer than N goes into the prompt as its first N characters, between
    the fixed head and tail of the prompt and with nothing added; a
    content of at most N characters goes into the prompt as it is.  The
    prompt is the only one submitted to the remote agent. *)
Theorem C4_content_truncated_to_maximum (self : ResumeAnalyzerAgent)
    (session : ChatAgent) (clk : Clock) (content user_id : pystr) (st : State) :
  _agent self = Some session ->
  0 <= max_analysis_length (settings self) ->
  let n := max_analysis_length (settings self) in
  let embedded := if n <? len content then firstn (Z.to_nat n) content else content in
  trace (snd (analyze_resume self clk content user_id st))
    = trace st ++ [ Invoked content user_id;
                    Submitted (PROMPT_HEAD ++ embedded ++ PROMPT_TAIL) ]
  /\ (n < len content -> embedded = firstn (Z.to_nat n) content /\ len embedded = n)
  /\ (len content <= n -> embedded = content)
  /\ max_analysis_length default_settings = 10000.
Proof.
  intros Hs Hn n embedded.
  split; [|split; [|split]].
  - rewrite (analyze_resume_trace self session) by assumption.
    unfold make_prompt. rewrite truncate_spec by assumption. reflexivity.
  - intros Hlt. subst embedded.
    destruct (n <? len content) eqn:E; [|apply Z.ltb_ge in E; lia].
    split; [reflexivity|].
    unfold len in *. rewrite length_firstn. lia.
  - intros Hle. subst embedded.
    destruct (n <? len content) eqn:E; [apply Z.ltb_lt in E; lia|reflexivity].
  - reflexivity.
Qed.

Lemma C4_content_truncated_to_maximum_witness :
  let session := {| run := fun _ => {| latency_ms := 5; outcome := Return [] |} |} in
  let self := {| settings := {| model_deployment_name := str "gpt-4o-deployment";
                                max_analysis_length := 12;
                                request_timeout := 30 |};
                 _agent := Some session |} in
  let clk := {| processing_time_ms := float_of_Z 5; timestamp := [] |} in
  trace (snd (analyze_resume self clk (str "Software Engineer, 5 years of Python")
                (str "user123") Main.initial_state))
  = [ Invoked (str "Software Engineer, 5 years of Python") (str "user123");
      Submitted (PROMPT_HEAD ++ str "Software Eng" ++ PROMPT_TAIL) ].
Proof.
  intros session self clk.
  exact (proj1 (C4_content_truncated_to_maximum self session clk
                  (str "Software Engineer, 5 years of Python") (str "user123")
                  Main.initial_state eq_refl ltac:(discriminate))).
Defined.

(** A maximum below zero cuts from the end instead. *)
Example truncate_negative_maximum :
  truncate {| model_deployment_name := []; max_analysis_length := -3;
              request_timeout := 30 |} (str "abcdefgh") = str "abcde".
Proof. reflexivity. Qed.

(** The outcome of a call whose remote part takes longer than the timeout. *)
Lemma analyze_resume_timeout (self : ResumeAnalyzerAgent) (session : ChatAgent)
    (clk : Clock) (content user_id : pystr) (st : State) :
  _agent self = Some session ->
  1000 * request_timeout (settings self)
    < latency_ms (run session (make_prompt (truncate (settings self) content))) ->
  fst (analyze_resume self clk content user_id st)
  = Raise (ValueError TIMEOUT_MESSAGE).
Proof.
  intros Hs Hlat.
  unfold analyze_resume, bind, try_except, emit, lift, ret, raise.
  rewrite Hs. unfold wait_for.
  apply Z.ltb_lt in Hlat. rewrite Hlat, orb_true_r. reflexivity.
Qed.

End Orchestrator.


(** ** The HTTP surface *)

Section HttpSurface.
Import Config Models Agent Main.

(** C6.  When the remote call needs longer than the configured timeout,
    [analyze_resume] of the agent raises a [ValueError] whose message is
    exactly "Analysis request timed out. Please try again." (and not the
    timeout exception), and [POST /analyze] answers 400 with that message
    as its detail. *)
Theorem C6_timeout_is_a_400 (w : World) (self : ResumeAnalyzerAgent)
    (session : ChatAgent) (request : ResumeAnalysisRequest) (st : State) :
  _agent_instance st = Some self ->
  _agent self = Some session ->
  1000 * request_timeout (settings self)
    < latency_ms (run session
        (make_prompt (truncate (settings self) (content request)))) ->
  fst (Agent.analyze_resume self (clock w) (content request) (user_id request) st)
    = Raise (ValueError (str "Analysis request timed out. Please try again."))
  /\ fst (Main.analyze_resume w request st)
    = Return {| status_code := 400;
                body := DetailBody
                          (str "Analysis request timed out. Please try again.") |}
  /\ (forall request_body,
        ResumeAnalysisRequest_validate request_body = Return request ->
        fst (post_analyze w request_body st)
        = Return {| status_code := 400;
                    body := DetailBody
                              (str "Analysis request timed out. Please try again.") |}).
Proof.
  intros Hi Hs Hlat.
  pose proof (analyze_resume_timeout self session (clock w)
                (content request) (user_id request) st Hs Hlat) as Ha.
  assert (Hm : fst (Main.analyze_resume w request st)
               = Return {| status_code := 400;
                           body := DetailBody TIMEOUT_MESSAGE |}).
  { unfold Main.analyze_resume, try_except, bind, get_agent. rewrite Hi.
    destruct (Agent.analyze_resume self (clock w) (content request)
                (user_id request) st) as [r st'] eqn:E.
    cbn [fst] in Ha. subst r. reflexivity. }
  split; [exact Ha|split; [exact Hm|]].
  intros request_body Hv. unfold post_analyze. rewrite Hv. exact Hm.
Qed.

Lemma C6_timeout_is_a_400_witness :
  let w := example_world (str "late") 31000 in
  let st := example_state (str "late") 31000 in
  fst (post_analyze w
         (request_body (str "Software Engineer, 5 years of Python") (str "user123"))
         st)
  = Return {| status_code := 400;
              body := DetailBody
                        (str "Analysis request timed out. Please try again.") |}.
Proof.
  intros w st.
  refine (proj2 (proj2 (C6_timeout_is_a_400 w
            {| settings := default_settings;
               _agent := Some {| run := fun _ => {| latency_ms := 31000;
                                                     outcome := Return (str "late") |} |} |}
            {| run := fun _ => {| latency_ms := 31000;
                                  outcome := Return (str "late") |} |}
            {| content := str "Software Engineer, 5 years of Python";
               user_id := str "user123" |}
            st eq_refl eq_refl _)) _ _).
  - reflexivity.
  - reflexivity.
Defined.


(** What validation does with a content that is too short. *)
Lemma validate_short_content (d : pydict) (c : pystr) :
  dict_get (str "content") d = Some (PyStr c) ->
  len c < 10 ->
  exists e, ResumeAnalysisRequest_validate (PyDict d) = Raise e.
Proof.
  intros Hc Hl. unfold ResumeAnalysisRequest_validate, required at 1.
  rewrite Hc. unfold str_field at 1.
  destruct (existsb is_surrogate c); [eexists; reflexivity|].
  apply Z.ltb_lt in Hl. rewrite Hl. cbn [Res.bind].
  eexists. reflexivity.
Qed.







(** What validation does with a content that passes. *)
Lemma validate_accepted (d : pydict) (c u : pystr) :
  dict_get (str "content") d = Some (PyStr c) ->
  dict_get (str "user_id") d = Some (PyStr u) ->
  existsb is_surrogate c = false -> existsb is_surrogate u = false ->
  10 <= len c <= 10000 -> strip c <> [] -> 1 <= len u <= 100 ->
  ResumeAnalysisRequest_validate (PyDict d)
  = Return {| content := strip c; user_id := u |}.
Proof.
  intros Hc Hu Hsc Hsu Hlc Hs Hlu. unfold ResumeAnalysisRequest_validate, required.
  rewrite Hc, Hu. unfold str_field. rewrite Hsc, Hsu.
  destruct (len c <? 10) eqn:E1; [apply Z.ltb_lt in E1; lia|].
  destruct (10000 <? len c) eqn:E2; [apply Z.ltb_lt in E2; lia|].
  destruct (len u <? 1) eqn:E3; [apply Z.ltb_lt in E3; lia|].
  destruct (100 <? len u) eqn:E4; [apply Z.ltb_lt in E4; lia|].
  cbn [Res.bind]. unfold validate_content.
  destruct (strip c) eqn:E; [congruence|reflexivity].
Qed.

(** C9.  The minimum length of 10 is checked on the content as it was
    sent, and the validator then returns its strip: a body whose content
    has between 10 and 10000 characters, not all of them blanks and none
    of them a surrogate (nor any of the user id), is accepted with the
    stripped content, which is what the handler and the
    agent's [analyze_resume] receive.  The content "   abc    " has 10
    characters and is accepted as "abc", of 3 characters.  A content of
    fewer than 10 characters as sent is rejected whatever its strip. *)
Theorem C9_length_checked_before_strip (w : World) (st : State)
    (self : ResumeAnalyzerAgent) (d : pydict) (c u : pystr) :
  dict_get (str "content") d = Some (PyStr c) ->
  dict_get (str "user_id") d = Some (PyStr u) ->
  existsb is_surrogate c = false -> existsb is_surrogate u = false ->
  10 <= len c <= 10000 -> strip c <> [] -> 1 <= len u <= 100 ->
  _agent_instance st = Some self ->
  ResumeAnalysisRequest_validate (PyDict d)
    = Return {| content := strip c; user_id := u |}
  /\ post_analyze w (PyDict d) st
    = Main.analyze_resume w {| content := strip c; user_id := u |} st
  /\ (exists rest,
        trace (snd (post_analyze w (PyDict d) st))
        = trace st ++ Invoked (strip c) u :: rest)
  /\ (len (str "   abc    ") = 10
      /\ strip (str "   abc    ") = str "abc"
      /\ len (strip (str "   abc    ")) = 3)
  /\ (forall d' c', dict_get (str "content") d' = Some (PyStr c') ->
        len c' < 10 ->
        exists e, ResumeAnalysisRequest_validate (PyDict d') = Raise e).
Proof.
  intros Hc Hu Hsc Hsu Hlc Hs Hlu Hi.
  pose proof (validate_accepted d c u Hc Hu Hsc Hsu Hlc Hs Hlu) as Hv.
  split; [exact Hv|split; [|split; [|split; [|exact validate_short_content]]]].
  - unfold post_analyze. now rewrite Hv.
  - unfold post_analyze. rewrite Hv.
    unfold Main.analyze_resume, try_except, bind, get_agent. rewrite Hi.
    cbn [content user_id].
    unfold Agent.analyze_resume, bind, try_except, emit, lift, ret, raise.
    cbn [trace _agent_instance].
    destruct (_agent self) as [session|].
    + eexists.
      repeat match goal with
             | |- context [match ?r with Return _ => _ | Raise _ => _ end] =>
                 destruct r
             | |- context [match ?e with TimeoutError => _ | _ => _ end] =>
                 destruct e
             | |- context [if ?b then _ else _] => destruct b
             end; cbn [snd trace]; rewrite <- app_assoc; reflexivity.
    + eexists. cbn [is_ValueError snd trace]. reflexivity.
  - repeat split.
Qed.

Lemma C9_length_checked_before_strip_witness :
  let w := example_world (str "not json at all") 10 in
  let st := example_state (str "not json at all") 10 in
  let request := request_body (str "   abc    ") (str "user123") in
  ResumeAnalysisRequest_validate request
    = Return {| content := str "abc"; user_id := str "user123" |}
  /\ len (str "abc") < 10
  /\ trace (snd (post_analyze w request st))
     = [ Invoked (str "abc") (str "user123");
         Submitted (make_prompt (str "abc")) ].
Proof.
  intros w st request.
  destruct (C9_length_checked_before_strip w st
              {| settings := default_settings;
                 _agent := Some {| run := fun _ => {| latency_ms := 10;
                                      outcome := Return (str "not json at all") |} |} |}
              [(str "content", PyStr (str "   abc    "));
               (str "user_id", PyStr (str "user123"))]
              (str "   abc    ") (str "user123")
              eq_refl eq_refl eq_refl eq_refl
              ltac:(vm_compute; split; discriminate)
              ltac:(vm_compute; discriminate)
              ltac:(vm_compute; split; discriminate)
              eq_refl) as (Hv & Hp & _).
  subst request. unfold request_body.
  split; [exact Hv|split; [reflexivity|]].
  rewrite Hp. vm_compute. reflexivity.
Defined.

End HttpSurface.


(** ** Runs of the model *)

Section Runs.
Import Config Models Agent Main.

Example float_literal_70 : float_of_decimal false 700 (-1) = float_of_Z 70.
Proof. reflexivity. Qed.

Example float_literal_tenth :
  float_of_decimal false 1 (-1) = S754_finite false 7205759403792794 (-56).
Proof. reflexivity. Qed.

Example float_literal_overflow :
  float_of_decimal false 1 400 = S754_infinity false.
Proof. reflexivity. Qed.

Example loads_object :
  Json.loads (quoted " {'a': [1, -2.5e1, true, null], 'b': 'xA\n', 'a': {}} ")
  = Return (PyDict [ (str "a", PyDict []);
                     (str "b", PyStr [120%N; 65%N; 10%N]) ]).
Proof. vm_compute. reflexivity. Qed.

Example loads_rejects_trailing_comma :
  Json.loads (quoted "[1, 2,]") = Raise JSONDecodeError.
Proof. vm_compute. reflexivity. Qed.

Example loads_rejects_leading_zero :
  Json.loads (str "012") = Raise JSONDecodeError.
Proof. vm_compute. reflexivity. Qed.

Example loads_accepts_nan :
  Json.loads (str "NaN") = Return (PyFloat S754_nan).
Proof. vm_compute. reflexivity. Qed.

(** A score that is not a number is not clamped: the comparison raises. *)
Example score_not_a_number :
  exists msg,
    _parse_agent_response
      (quoted "{'score': 'high', 'optimized_content': 'X', 'suggestions': []}")
    = Raise (TypeError msg).
Proof. eexists. vm_compute. reflexivity. Qed.

(** A NaN score is outside the range and becomes 100. *)
Example score_nan :
  _parse_agent_response
    (quoted "{'score': NaN, 'optimized_content': 'X', 'suggestions': []}")
  = Return (PyDict [ (str "score", PyInt 100);
                     (str "optimized_content", PyStr (str "X"));
                     (str "suggestions", PyList []) ]).
Proof. vm_compute. reflexivity. Qed.

(** A reply that cannot be decoded is served as a 200 with the default
    analysis. *)
Example undecodable_reply_served :
  exists metadata,
    fst (post_analyze (example_world (str "not json at all") 10)
           (request_body (str "Software Engineer, 5 years of Python") (str "user123"))
           (example_state (str "not json at all") 10))
    = Return {| status_code := 200;
                body := AnalysisBody
                  {| score := float_of_Z 70;
                     optimized_content :=
                       str "Analysis parsing failed. Original content returned.";
                     suggestions :=
                       [ {| category := str "System";
                            description :=
                              str "Unable to parse AI response. Please try again.";
                            priority := 1 |} ];
                     analysis_metadata := metadata |} |}.
Proof. eexists. vm_compute. reflexivity. Qed.

(** A reply without a required field is served as a 400 that names it. *)
Example missing_field_served :
  fst (post_analyze (example_world (quoted "{'score': 50}") 10)
         (request_body (str "Software Engineer, 5 years of Python") (str "user123"))
         (example_state (quoted "{'score': 50}") 10))
  = Return {| status_code := 400;
              body := DetailBody (str "Missing required field: optimized_content") |}.
Proof. vm_compute. reflexivity. Qed.

(** The agent that failed to initialise answers every request with 500. *)
Example uninitialised_agent_served :
  let w := {| get_settings := default_settings;
              connect := Raise (RemoteError (str "no credentials"));
              clock := {| processing_time_ms := float_of_Z 0; timestamp := [] |} |} in
  let st := snd (get_agent w initial_state) in
  lifespan_startup w = Raise (RemoteError (str "no credentials"))
  /\ fst (post_analyze w
            (request_body (str "Software Engineer, 5 years of Python") (str "user123"))
            st)
     = Return {| status_code := 500;
                 body := DetailBody
                   (str "An error occurred during resume analysis. Please try again later.") |}.
Proof. split; vm_compute; reflexivity. Qed.

End Runs.


(* ================================================================== *)
(** * Further properties of the code *)
(* ================================================================== *)

(** ** Extraction of the JSON text from a reply *)

Section Extraction.
Import Agent.

Lemma skipn_prefix (a b : pystr) (n : nat) :
  skipn (List.length a + n) (a ++ b) = skipn n b.
Proof. induction a as [|x a IH]; simpl; [reflexivity|exact IH]. Qed.

Lemma contains_here (sub pre rest : pystr) :
  contains sub (pre ++ sub ++ rest) = true.
Proof.
  induction pre as [|c pre IH].
  - destruct (sub ++ rest) eqn:E; cbn [app contains]; rewrite <- E;
      rewrite startswith_app; reflexivity.
  - cbn [app contains]. rewrite IH. apply orb_true_r.
Qed.

(** A marker that begins with a backtick is not found in a text without
    backticks. *)
Lemma find_marker_skip (m w rest : pystr) (i : Z) :
  (forall c, In c w -> c <> 96%N) ->
  find_aux (96%N :: m) (w ++ rest) i = find_aux (96%N :: m) rest (i + len w).
Proof.
  revert i. induction w as [|c w IH]; intros i H.
  - simpl. f_equal. unfold len. simpl. lia.
  - change ((c :: w) ++ rest) with (c :: (w ++ rest)).
    unfold find_aux at 1. fold find_aux. cbn [startswith].
    assert (Hc : N.eqb 96 c = false).
    { apply N.eqb_neq. intros E. apply (H c); [now left|now symmetry]. }
    rewrite Hc. cbn [andb].
    rewrite IH by (intros x Hx; apply H; now right).
    f_equal. unfold len. cbn [List.length]. lia.
Qed.

Lemma contains_marker_skip (m w rest : pystr) :
  (forall c, In c w -> c <> 96%N) ->
  contains (96%N :: m) (w ++ rest) = contains (96%N :: m) rest.
Proof.
  induction w as [|c w IH]; intros H; [reflexivity|].
  change ((c :: w) ++ rest) with (c :: (w ++ rest)).
  unfold contains at 1. fold contains. cbn [startswith].
  assert (Hc : N.eqb 96 c = false).
  { apply N.eqb_neq. intros E. apply (H c); [now left|now symmetry]. }
  rewrite Hc. cbn [andb orb]. apply IH. intros x Hx. apply H. now right.
Qed.

Lemma contains_fence_pass (s rest : pystr) :
  contains FENCE s = false -> last s 0%N <> 96%N ->
  contains FENCE (s ++ rest) = contains FENCE rest.
Proof.
  induction s as [|c t IH]; intros Hc Hl; [reflexivity|].
  cbn [contains] in Hc. apply orb_false_iff in Hc as [H1 H2].
  change ((c :: t) ++ rest) with (c :: (t ++ rest)).
  unfold contains at 1. fold contains.
  change (c :: (t ++ rest)) with ((c :: t) ++ rest).
  rewrite (no_fence_across (c :: t) rest) by (assumption || discriminate).
  cbn [orb]. apply IH; [assumption|].
  destruct t as [|d t']; [cbn; discriminate|exact Hl].
Qed.

(** The text between an opening marker [m] that is found where the prose
    [pre] ends and the closing fence that is found where [body] ends. *)
Lemma block_between (m pre body rest : pystr) :
  find_aux m (pre ++ m ++ body ++ FENCE ++ rest) 0 = len pre ->
  (forall i, find_aux FENCE (body ++ FENCE ++ rest) i = i + len body) ->
  let reply := pre ++ m ++ body ++ FENCE ++ rest in
  let json_start := find m reply 0 + len m in
  slice reply json_start (find FENCE reply json_start) = body.
Proof.
  intros Hm Hb reply json_start.
  assert (Hlen : len reply = len pre + len m + len body + len (FENCE ++ rest)).
  { subst reply. rewrite !len_app. lia. }
  pose proof (len_nonneg pre). pose proof (len_nonneg m).
  pose proof (len_nonneg body). pose proof (len_nonneg (FENCE ++ rest)).
  assert (Hjs : json_start = len pre + len m).
  { subst json_start. rewrite find_from by lia.
    change (skipn (Z.to_nat 0) reply) with reply. subst reply. now rewrite Hm. }
  assert (Hskip : skipn (Z.to_nat json_start) reply = body ++ FENCE ++ rest).
  { rewrite Hjs. subst reply. unfold len. rewrite <- Nat2Z.inj_add, Nat2Z.id.
    rewrite app_assoc, <- length_app.
    rewrite <- (Nat.add_0_r (List.length (pre ++ m))).
    now rewrite skipn_prefix. }
  rewrite find_from by lia. rewrite Hskip, Hb.
  rewrite slice_inside by lia. rewrite Hskip.
  replace (json_start + len body - json_start) with (len body) by lia.
  unfold len. rewrite Nat2Z.id.
  rewrite firstn_app, Nat.sub_diag, firstn_all. cbn [firstn]. apply app_nil_r.
Qed.

(** Blanks, then a text without fence that does not end in a backtick,
    then blanks: the closing fence is found right after them. *)
Lemma closing_fence_after (w1 s w2 rest : pystr) (i : Z) :
  forallb isspace w1 = true -> forallb isspace w2 = true ->
  contains FENCE s = false -> last s 0%N <> 96%N ->
  find_aux FENCE ((w1 ++ s ++ w2) ++ FENCE ++ rest) i = i + len (w1 ++ s ++ w2).
Proof.
  intros H1 H2 Hs Hl. rewrite <- !app_assoc.
  rewrite find_fence_skip by now apply spaces_no_backtick.
  rewrite find_fence_pass by assumption.
  rewrite find_fence_skip by now apply spaces_no_backtick.
  rewrite find_fence_here. rewrite !len_app. lia.
Qed.

(** X1.  Prose around a tagged block is ignored: when the reply is a text
    without backticks, then a block opened by the tagged fence and closed
    by a fence, then any text, the normaliser decodes what the block
    holds, as if it had been sent alone. *)
Theorem tagged_block_in_prose (pre w1 json w2 rest : pystr) :
  (forall c, In c pre -> c <> 96%N) ->
  forallb isspace w1 = true -> forallb isspace w2 = true ->
  contains FENCE json = false -> last json 0%N <> 96%N ->
  extract_json_text (pre ++ FENCE_JSON ++ (w1 ++ json ++ w2) ++ FENCE ++ rest)
    = strip json
  /\ _parse_agent_response
       (pre ++ FENCE_JSON ++ (w1 ++ json ++ w2) ++ FENCE ++ rest)
     = _parse_agent_response json.
Proof.
  intros Hpre H1 H2 Hc Hl.
  assert (He : extract_json_text
                 (pre ++ FENCE_JSON ++ (w1 ++ json ++ w2) ++ FENCE ++ rest)
               = strip json).
  { unfold extract_json_text. rewrite contains_here.
    change 7 with (len FENCE_JSON).
    rewrite (block_between FENCE_JSON pre (w1 ++ json ++ w2) rest).
    - now apply strip_padded.
    - change FENCE_JSON with (96%N :: tl FENCE_JSON).
      rewrite find_marker_skip by assumption.
      change (96%N :: tl FENCE_JSON) with FENCE_JSON.
      destruct (FENCE_JSON ++ (w1 ++ json ++ w2) ++ FENCE ++ rest) eqn:E;
        cbn [find_aux]; rewrite <- E, startswith_app; lia.
    - intros i. now apply closing_fence_after. }
  split; [exact He|].
  unfold _parse_agent_response. rewrite He.
  unfold extract_json_text.
  now rewrite (no_fence_no_tagged_fence json Hc), Hc.
Qed.

Lemma tagged_block_in_prose_witness :
  let json := quoted "{'score': 88, 'optimized_content': 'X', 'suggestions': []}" in
  _parse_agent_response
    ((str "Here is the analysis:" ++ NL) ++ FENCE_JSON ++ (NL ++ json ++ NL)
       ++ FENCE ++ str " Hope it helps.")
  = Return (PyDict [ (str "score", PyInt 88);
                     (str "optimized_content", PyStr (str "X"));
                     (str "suggestions", PyList []) ]).
Proof.
  intros json.
  rewrite (proj2 (tagged_block_in_prose (str "Here is the analysis:" ++ NL)
                    NL json NL (str " Hope it helps.")
                    ltac:(intros c Hc; vm_compute in Hc;
                          repeat (destruct Hc as [<-|Hc]; [discriminate|]);
                          destruct Hc)
                    eq_refl eq_refl eq_refl ltac:(vm_compute; discriminate))).
  vm_compute. reflexivity.
Defined.

(** X2.  The plain fence is read like the tagged one: when the reply has
    no tagged fence and is a text without backticks, then a block between
    two fences, then any text, the normaliser decodes what the block
    holds. *)
Theorem plain_block_in_prose (pre w1 json w2 rest : pystr) :
  contains FENCE_JSON (pre ++ FENCE ++ (w1 ++ json ++ w2) ++ FENCE ++ rest) = false ->
  (forall c, In c pre -> c <> 96%N) ->
  forallb isspace w1 = true -> forallb isspace w2 = true ->
  contains FENCE json = false -> last json 0%N <> 96%N ->
  extract_json_text (pre ++ FENCE ++ (w1 ++ json ++ w2) ++ FENCE ++ rest)
    = strip json
  /\ _parse_agent_response (pre ++ FENCE ++ (w1 ++ json ++ w2) ++ FENCE ++ rest)
     = _parse_agent_response json.
Proof.
  intros Hno Hpre H1 H2 Hc Hl.
  assert (He : extract_json_text
                 (pre ++ FENCE ++ (w1 ++ json ++ w2) ++ FENCE ++ rest)
               = strip json).
  { unfold extract_json_text. rewrite Hno, contains_here.
    change 3 with (len FENCE).
    rewrite (block_between FENCE pre (w1 ++ json ++ w2) rest).
    - now apply strip_padded.
    - rewrite find_fence_skip by assumption.
      rewrite find_fence_here. lia.
    - intros i. now apply closing_fence_after. }
  split; [exact He|].
  unfold _parse_agent_response. rewrite He.
  unfold extract_json_text.
  now rewrite (no_fence_no_tagged_fence json Hc), Hc.
Qed.

Lemma plain_block_in_prose_witness :
  let json := quoted "{'score': 88, 'optimized_content': 'X', 'suggestions': []}" in
  _parse_agent_response
    (str "Result: " ++ FENCE ++ (NL ++ json ++ NL) ++ FENCE ++ [])
  = Return (PyDict [ (str "score", PyInt 88);
                     (str "optimized_content", PyStr (str "X"));
                     (str "suggestions", PyList []) ]).
Proof.
  intros json.
  rewrite (proj2 (plain_block_in_prose (str "Result: ") NL json NL []
                    eq_refl
                    ltac:(intros c Hc; vm_compute in Hc;
                          repeat (destruct Hc as [<-|Hc]; [discriminate|]);
                          destruct Hc)
                    eq_refl eq_refl eq_refl ltac:(vm_compute; discriminate))).
  vm_compute. reflexivity.
Defined.

(** X3.  Without any fence the whole reply is the JSON text, and blanks
    around it (of any kind [strip] removes, also those the decoder itself
    would refuse) change nothing. *)
Theorem unfenced_reply_is_stripped (w1 json w2 : pystr) :
  forallb isspace w1 = true -> forallb isspace w2 = true ->
  contains FENCE json = false -> last json 0%N <> 96%N ->
  extract_json_text (w1 ++ json ++ w2) = strip json
  /\ _parse_agent_response (w1 ++ json ++ w2) = parse_or_fallback (strip json).
Proof.
  intros H1 H2 Hc Hl.
  assert (Hf : contains FENCE (w1 ++ json ++ w2) = false).
  { rewrite FENCE_chars.
    rewrite contains_marker_skip by now apply spaces_no_backtick.
    rewrite <- FENCE_chars. rewrite contains_fence_pass by assumption.
    rewrite <- (app_nil_r w2). rewrite FENCE_chars.
    rewrite contains_marker_skip by now apply spaces_no_backtick.
    reflexivity. }
  assert (He : extract_json_text (w1 ++ json ++ w2) = strip json).
  { unfold extract_json_text.
    rewrite (no_fence_no_tagged_fence _ Hf), Hf. now apply strip_padded. }
  split; [exact He|]. unfold _parse_agent_response. now rewrite He.
Qed.

Lemma unfenced_reply_is_stripped_witness :
  _parse_agent_response
    ([12%N; 10%N] ++ quoted "{'score': 88, 'optimized_content': 'X', 'suggestions': []}"
       ++ [160%N])
  = Return (PyDict [ (str "score", PyInt 88);
                     (str "optimized_content", PyStr (str "X"));
                     (str "suggestions", PyList []) ]).
Proof.
  etransitivity.
  - exact (proj2 (unfenced_reply_is_stripped [12%N; 10%N]
                    (quoted "{'score': 88, 'optimized_content': 'X', 'suggestions': []}")
                    [160%N] eq_refl eq_refl eq_refl
                    ltac:(vm_compute; discriminate))).
  - vm_compute. reflexivity.
Defined.

End Extraction.


(** ** What the normaliser returns and what it raises *)

Section NormalizerOutcomes.
Import Agent.

Lemma str_eqb_eq (a b : pystr) : str_eqb a b = true <-> a = b.
Proof.
  revert b. induction a as [|x a IH]; intros [|y b]; simpl;
    try (split; [discriminate|discriminate]); [tauto|].
  rewrite andb_true_iff, N.eqb_eq, IH. split.
  - now intros [-> ->].
  - intros H. injection H as -> ->. now split.
Qed.

Lemma str_eqb_sym (a b : pystr) : str_eqb a b = str_eqb b a.
Proof.
  destruct (str_eqb a b) eqn:E1, (str_eqb b a) eqn:E2; try reflexivity.
  - apply str_eqb_eq in E1. subst. now rewrite str_eqb_refl in E2.
  - apply str_eqb_eq in E2. subst. now rewrite str_eqb_refl in E1.
Qed.

(** Lookup after an assignment. *)
Lemma dict_get_set (k k' : pystr) (v : pyval) (d : pydict) :
  dict_get k (dict_set k' v d)
  = if str_eqb k k' then Some v else dict_get k d.
Proof.
  induction d as [|[k0 v0] d IH]; simpl.
  - reflexivity.
  - destruct (str_eqb k' k0) eqn:E0; simpl.
    + apply str_eqb_eq in E0. subst k0.
      destruct (str_eqb k k'); reflexivity.
    + rewrite IH. destruct (str_eqb k k0) eqn:E1; [|reflexivity].
      apply str_eqb_eq in E1. subst k0.
      rewrite str_eqb_sym in E0. now rewrite E0.
Qed.

Lemma in_range_false_number (sc : pyval) :
  in_range sc = Return false -> is_number sc = true.
Proof.
  destruct sc as [| b | z | f | | |]; try reflexivity;
    try (intros H; discriminate H).
  destruct b; intros H; discriminate H.
Qed.

(** What the loop over the required fields can do. *)
Lemma check_required_outcome (fields : list pystr) (v : pyval) :
  check_required fields v = Return tt
  \/ (exists f, In f fields
        /\ check_required fields v
           = Raise (ValueError (str "Missing required field: " ++ f)))
  \/ (exists msg, check_required fields v = Raise (TypeError msg)).
Proof.
  induction fields as [|f fields IH]; [now left|].
  cbn [check_required].
  destruct (py_in f v) as [b|e] eqn:E; cbn [Res.bind].
  - destruct b; cbn [negb].
    + destruct IH as [H|[[g [Hg H]]|[m H]]].
      * now left.
      * right. left. exists g. split; [now right|exact H].
      * right. right. now exists m.
    + right. left. exists f. split; [now left|reflexivity].
  - right. right.
    destruct v; cbn [py_in] in E; try discriminate E;
      injection E as <-; eexists; reflexivity.
Qed.

Lemma num_compare_outcome (a b : pyval) :
  (exists c, num_compare a b = Return c)
  \/ (exists msg, num_compare a b = Raise (TypeError msg)).
Proof.
  unfold num_compare.
  destruct (as_int a), (as_int b), a, b;
    try (left; eexists; reflexivity); right; eexists; reflexivity.
Qed.

Lemma in_range_outcome (sc : pyval) :
  (exists b, in_range sc = Return b)
  \/ (exists msg, in_range sc = Raise (TypeError msg)).
Proof.
  unfold in_range, py_le.
  destruct (num_compare_outcome (PyInt 0) sc) as [[c0 H0]|[m H0]];
    rewrite H0; cbn [Res.bind]; [|right; now exists m].
  destruct (match c0 with Some Eq | Some Lt => true | _ => false end);
    [|left; eexists; reflexivity].
  destruct (num_compare_outcome sc (PyInt 100)) as [[c1 H1]|[m H1]];
    rewrite H1; cbn [Res.bind]; [left; eexists; reflexivity|right; now exists m].
Qed.

Lemma clamp_outcome (sc : pyval) :
  (exists c, clamp sc = Return c)
  \/ (exists msg, clamp sc = Raise (TypeError msg)).
Proof.
  unfold clamp, py_min, py_lt.
  destruct (num_compare_outcome sc (PyInt 100)) as [[c1 H1]|[m H1]];
    rewrite H1; cbn [Res.bind]; [|right; now exists m].
  unfold py_max, py_gt.
  destruct (num_compare_outcome
              (if match c1 with Some Lt => true | _ => false end
               then sc else PyInt 100) (PyInt 0)) as [[c2 H2]|[m H2]];
    rewrite H2; cbn [Res.bind];
    [left; eexists; reflexivity|right; now exists m].
Qed.

(** What the range check and the clamp can do on a value that passed the
    loop over the required fields. *)
Lemma clamp_score_outcome (v : pyval) :
  check_required required_fields v = Return tt ->
  (exists v', clamp_score v = Return v')
  \/ (exists msg, clamp_score v = Raise (TypeError msg)).
Proof.
  intros Hc. unfold clamp_score.
  destruct v as [| | | | s | l | d];
    try (right; eexists; reflexivity).
  rewrite check_required_dict in Hc.
  unfold getitem.
  destruct (dict_get (str "score") d) as [sc|] eqn:Es.
  2:{ unfold dict_mem in Hc. rewrite Es in Hc. discriminate Hc. }
  cbn [Res.bind].
  destruct (in_range_outcome sc) as [[b Hb]|[m Hb]];
    rewrite Hb; cbn [Res.bind]; [|right; now exists m].
  destruct b; cbn [negb]; [left; eexists; reflexivity|].
  destruct (clamp_outcome sc) as [[c H1]|[m H1]];
    rewrite H1; cbn [Res.bind setitem];
    [left; eexists; reflexivity|right; now exists m].
Qed.

(** What the normaliser raises when the decoder has returned or has
    raised its own error. *)
Lemma parse_raises (reply : pystr) (e : exn) :
  _parse_agent_response reply = Raise e ->
  (exists f, In f required_fields
     /\ e = ValueError (str "Missing required field: " ++ f))
  \/ (exists msg, e = TypeError msg).
Proof.
  unfold _parse_agent_response, parse_or_fallback, parse_json_text.
  destruct (loads_total (extract_json_text reply)) as [[v Hv]|Hv];
    rewrite Hv; cbn [Res.bind]; [|discriminate].
  destruct (check_required_outcome required_fields v) as [H|[[f [Hf H]]|[m H]]];
    rewrite H; cbn [Res.bind].
  - destruct (clamp_score_outcome v H) as [[v' H']|[m H']]; rewrite H'.
    + discriminate.
    + intros E. injection E as <-. right. now exists m.
  - intros E. injection E as <-. left. now exists f.
  - intros E. injection E as <-. right. now exists m.
Qed.

(** X4.  On a reply whose extracted text stays within the limits of the
    interpreter (so that the decoder either returns or raises its own
    error), the only exceptions the normaliser lets through are the
    [ValueError] that names a missing required field and a [TypeError]
    (a reply that decodes to something else than an object, or a score
    that cannot be compared with a number).  The decoding error never
    reaches the caller. *)
Theorem normalizer_exceptions (reply : pystr) (e : exn) :
  Json.within_limits (extract_json_text reply) = true ->
  _parse_agent_response reply = Raise e ->
  e <> JSONDecodeError
  /\ ((exists f, In f required_fields
         /\ e = ValueError (str "Missing required field: " ++ f))
      \/ (exists msg, e = TypeError msg)).
Proof.
  intros _ H. pose proof (parse_raises reply e H) as Hd. split; [|exact Hd].
  destruct Hd as [[f [_ ->]]|[m ->]]; discriminate.
Qed.

Lemma normalizer_exceptions_witness :
  Json.within_limits (extract_json_text (str "[1, 2]")) = true
  /\ _parse_agent_response (str "[1, 2]")
     = Raise (ValueError (str "Missing required field: score"))
  /\ ValueError (str "Missing required field: score") <> JSONDecodeError.
Proof.
  assert (H : _parse_agent_response (str "[1, 2]")
              = Raise (ValueError (str "Missing required field: score")))
    by (vm_compute; reflexivity).
  split; [reflexivity|]. split; [exact H|].
  exact (proj1 (normalizer_exceptions (str "[1, 2]") _ eq_refl H)).
Defined.

(** What the normaliser returns. *)
Lemma parse_returns (reply : pystr) (v : pyval) :
  _parse_agent_response reply = Return v ->
  exists d sc,
    v = PyDict d
    /\ dict_get (str "score") d = Some sc
    /\ in_range sc = Return true
    /\ dict_mem (str "optimized_content") d = true
    /\ dict_mem (str "suggestions") d = true
    /\ (v = FALLBACK
        \/ exists d0,
             Json.loads (extract_json_text reply) = Return (PyDict d0)
             /\ forall k, str_eqb k (str "score") = false ->
                          dict_get k d = dict_get k d0).
Proof.
  unfold _parse_agent_response, parse_or_fallback, parse_json_text.
  destruct (Json.loads (extract_json_text reply)) as [a|e] eqn:Hl;
    cbn [Res.bind].
  2:{ destruct e; try discriminate. intros H. injection H as <-.
      eexists. eexists. split; [reflexivity|].
      split; [reflexivity|]. split; [vm_compute; reflexivity|].
      split; [reflexivity|]. split; [reflexivity|]. now left. }
  destruct (check_required_outcome required_fields a) as [Hc|[[f [_ Hc]]|[m Hc]]];
    rewrite Hc; cbn [Res.bind]; [|discriminate|discriminate].
  destruct (clamp_score_outcome a Hc) as [[v' Hs]|[m Hs]];
    rewrite Hs; [|discriminate].
  intros H. injection H as ->.
  destruct a as [| | | | s | l | d0]; try discriminate Hs.
  rewrite check_required_dict in Hc.
  destruct (dict_mem (str "score") d0) eqn:M1; [|discriminate Hc].
  destruct (dict_mem (str "optimized_content") d0) eqn:M2; [|discriminate Hc].
  destruct (dict_mem (str "suggestions") d0) eqn:M3; [|discriminate Hc].
  unfold clamp_score, getitem in Hs.
  destruct (dict_get (str "score") d0) as [sc|] eqn:Es;
    [|unfold dict_mem in M1; rewrite Es in M1; discriminate M1].
  cbn [Res.bind] in Hs.
  destruct (in_range sc) as [[|]|e] eqn:Hr; cbn [Res.bind negb] in Hs;
    [| |discriminate Hs].
  - injection Hs as <-. exists d0, sc.
    repeat (split; [assumption || reflexivity|]).
    right. exists d0. split; [reflexivity|]. reflexivity.
  - destruct (clamp_number sc (in_range_false_number sc Hr)) as [_ Hcl].
    destruct (Hcl Hr) as [c [Hc1 Hc2]]. rewrite Hc1 in Hs.
    cbn [Res.bind setitem] in Hs. injection Hs as <-.
    exists (dict_set (str "score") c d0), c.
    split; [reflexivity|]. split; [apply dict_get_set_same|].
    split; [exact Hc2|].
    split.
    { unfold dict_mem in *. rewrite dict_get_set.
      destruct (str_eqb _ _); [reflexivity|exact M2]. }
    split.
    { unfold dict_mem in *. rewrite dict_get_set.
      destruct (str_eqb _ _); [reflexivity|exact M3]. }
    right. exists d0. split; [reflexivity|].
    intros k Hk. rewrite dict_get_set. now rewrite Hk.
Qed.

(** X5.  Whatever the normaliser returns is an object that has the three
    required fields and a score for which [0 <= score <= 100] holds; and
    it is either the default analysis or the decoded object with at most
    its score replaced. *)
Theorem normalizer_postcondition (reply : pystr) (v : pyval) :
  _parse_agent_response reply = Return v ->
  exists d sc,
    v = PyDict d
    /\ dict_get (str "score") d = Some sc
    /\ in_range sc = Return true
    /\ dict_mem (str "optimized_content") d = true
    /\ dict_mem (str "suggestions") d = true
    /\ (v = FALLBACK
        \/ exists d0,
             Json.loads (extract_json_text reply) = Return (PyDict d0)
             /\ forall k, str_eqb k (str "score") = false ->
                          dict_get k d = dict_get k d0).
Proof.
  exact (parse_returns reply v).
Qed.

Lemma normalizer_postcondition_witness :
  exists d sc,
    _parse_agent_response
      (quoted "{'score': -3, 'optimized_content': 'X', 'suggestions': [], 'reasoning': 'r'}")
    = Return (PyDict d)
    /\ dict_get (str "score") d = Some sc
    /\ in_range sc = Return true
    /\ dict_get (str "reasoning") d = Some (PyStr (str "r")).
Proof.
  pose (reply :=
    quoted "{'score': -3, 'optimized_content': 'X', 'suggestions': [], 'reasoning': 'r'}").
  assert (H : _parse_agent_response reply
              = Return (PyDict [ (str "score", PyInt 0);
                                 (str "optimized_content", PyStr (str "X"));
                                 (str "suggestions", PyList []);
                                 (str "reasoning", PyStr (str "r")) ]))
    by (vm_compute; reflexivity).
  destruct (normalizer_postcondition reply _ H) as (d & sc & Hd & Hs & Hr & _).
  exists d, sc. fold reply. rewrite H, Hd.
  split; [reflexivity|]. split; [exact Hs|]. split; [exact Hr|].
  injection Hd as <-. reflexivity.
Defined.

(** X6.  A score that is present but is neither a number nor a boolean
    (a string, null, a list, an object) is not replaced by anything: the
    range check raises a [TypeError], which the normaliser lets through. *)
Theorem score_not_comparable_raises (reply : pystr) (d : pydict) (sc : pyval) :
  Json.loads (extract_json_text reply) = Return (PyDict d) ->
  dict_get (str "score") d = Some sc ->
  dict_mem (str "optimized_content") d = true ->
  dict_mem (str "suggestions") d = true ->
  is_number sc = false -> as_int sc = None ->
  exists msg, _parse_agent_response reply = Raise (TypeError msg).
Proof.
  intros Hl Hs Ho Hg Hn Hi.
  unfold _parse_agent_response, parse_or_fallback, parse_json_text.
  rewrite Hl. cbn [Res.bind]. rewrite check_required_dict.
  rewrite (dict_mem_get _ _ _ Hs), Ho, Hg. cbn [negb Res.bind].
  unfold clamp_score, getitem. rewrite Hs. cbn [Res.bind].
  destruct sc; try discriminate Hn; try discriminate Hi;
    eexists; reflexivity.
Qed.

Lemma score_not_comparable_raises_witness :
  exists msg,
    _parse_agent_response
      (quoted "{'score': null, 'optimized_content': 'X', 'suggestions': []}")
    = Raise (TypeError msg).
Proof.
  apply (score_not_comparable_raises _
           [ (str "score", PyNone);
             (str "optimized_content", PyStr (str "X"));
             (str "suggestions", PyList []) ] PyNone);
    vm_compute; reflexivity.
Defined.

(** X7.  A number outside the range is replaced by an integer, never by a
    float: by 0 when it is below 100, by 100 otherwise (a NaN is not below
    100). *)
Theorem clamp_gives_integer_bound (sc : pyval) :
  is_number sc = true ->
  in_range sc = Return false ->
  (py_lt sc (PyInt 100) = Return true /\ clamp sc = Return (PyInt 0))
  \/ (py_lt sc (PyInt 100) = Return false /\ clamp sc = Return (PyInt 100)).
Proof.
  destruct sc as [| | z | f | | |]; try discriminate; intros _.
  - rewrite in_range_int, clamp_int. intros H. injection H as H.
    unfold py_lt, num_compare. cbn [as_int Res.bind].
    apply andb_false_iff in H as [H|H]; apply Z.leb_gt in H.
    + left. split.
      * destruct (Z.compare_spec z 100); try lia; reflexivity.
      * do 2 f_equal. lia.
    + right. split.
      * destruct (Z.compare_spec z 100); try lia; reflexivity.
      * do 2 f_equal. lia.
  - unfold in_range, clamp, py_le, py_min, py_max, py_lt, py_gt, num_compare.
    cbn [as_int Res.bind option_map].
    destruct (float_Z_compare f 0) as [[| |]|] eqn:E0;
      destruct (float_Z_compare f 100) as [[| |]|] eqn:E1;
      cbn [as_int Res.bind option_map CompOpp];
      rewrite ?E0, ?E1; cbn [as_int Res.bind option_map CompOpp];
      intros H; try discriminate H;
      try (left; split; reflexivity); right; split; reflexivity.
Qed.

Lemma clamp_gives_integer_bound_witness :
  clamp (PyFloat S754_nan) = Return (PyInt 100)
  /\ clamp (PyFloat (float_of_decimal true 5 (-1))) = Return (PyInt 0).
Proof.
  split.
  - destruct (clamp_gives_integer_bound (PyFloat S754_nan) eq_refl eq_refl)
      as [[H _]|[_ H]]; [discriminate H|exact H].
  - destruct (clamp_gives_integer_bound
                (PyFloat (float_of_decimal true 5 (-1))) eq_refl eq_refl)
      as [[_ H]|[H _]]; [exact H|discriminate H].
Defined.

End NormalizerOutcomes.


(** ** Validation of the request *)

Section RequestValidation.
Import Config Models Agent Main.

Lemma lstrip_head (s : pystr) (c : char) (t : pystr) :
  lstrip s = c :: t -> isspace c = false.
Proof.
  induction s as [|x s IH]; simpl; [discriminate|].
  destruct (isspace x) eqn:E; [exact IH|].
  intros H. injection H as <- _. exact E.
Qed.

Lemma lstrip_idem (s : pystr) : lstrip (lstrip s) = lstrip s.
Proof.
  destruct (lstrip s) as [|c t] eqn:E; [reflexivity|].
  apply lstrip_head in E. simpl. now rewrite E.
Qed.

Lemma lstrip_length (s : pystr) :
  (List.length (lstrip s) <= List.length s)%nat.
Proof.
  induction s as [|c s IH]; simpl; [lia|].
  destruct (isspace c); simpl; lia.
Qed.

Lemma strip_length (s : pystr) : len (strip s) <= len s.
Proof.
  unfold strip, rstrip, len. rewrite length_rev.
  pose proof (lstrip_length (rev (lstrip s))) as H1.
  rewrite length_rev in H1. pose proof (lstrip_length s). lia.
Qed.

Lemma lstrip_keeps_last (q : pystr) (x : char) :
  isspace x = false -> exists p, lstrip (q ++ [x]) = p ++ [x].
Proof.
  intros Hx. induction q as [|c q IH]; simpl.
  - rewrite Hx. now exists [].
  - destruct (isspace c); [exact IH|]. now exists (c :: q).
Qed.

(** What [strip] returns has no blanks left to strip. *)
Lemma strip_idem (s : pystr) : strip (strip s) = strip s.
Proof.
  unfold strip at 2 3. destruct (lstrip s) as [|x a] eqn:E; [reflexivity|].
  apply lstrip_head in E.
  unfold rstrip. cbn [rev].
  destruct (lstrip_keeps_last (rev a) x E) as [p Hp]. rewrite Hp.
  rewrite rev_app_distr. cbn [rev app].
  unfold strip. cbn [lstrip]. rewrite E.
  unfold rstrip. cbn [rev]. rewrite rev_involutive.
  rewrite <- Hp, lstrip_idem, Hp. rewrite rev_app_distr. reflexivity.
Qed.

(** What an accepted body was. *)
Lemma validate_returns (request_body : pyval) (r : ResumeAnalysisRequest) :
  ResumeAnalysisRequest_validate request_body = Return r ->
  exists d c u,
    request_body = PyDict d
    /\ dict_get (str "content") d = Some (PyStr c)
    /\ dict_get (str "user_id") d = Some (PyStr u)
    /\ existsb is_surrogate c = false
    /\ existsb is_surrogate u = false
    /\ 10 <= len c <= 10000
    /\ strip c <> []
    /\ 1 <= len u <= 100
    /\ r = {| content := strip c; user_id := u |}.
Proof.
  unfold ResumeAnalysisRequest_validate, required.
  destruct request_body as [| | | | | | d]; try discriminate.
  destruct (dict_get (str "content") d) as [[| | | | c | |]|] eqn:Ec;
    cbn [str_field Res.bind]; try discriminate.
  destruct (existsb is_surrogate c) eqn:S1; cbn [Res.bind]; [discriminate|].
  destruct (len c <? 10) eqn:E1; cbn [Res.bind]; [discriminate|].
  destruct (10000 <? len c) eqn:E2; cbn [Res.bind]; [discriminate|].
  unfold validate_content.
  destruct (strip c) as [|x t] eqn:Es; [discriminate|].
  destruct (dict_get (str "user_id") d) as [[| | | | u | |]|] eqn:Eu;
    cbn [str_field]; try discriminate.
  destruct (existsb is_surrogate u) eqn:S2; [discriminate|].
  destruct (len u <? 1) eqn:E3; [discriminate|].
  destruct (100 <? len u) eqn:E4; [discriminate|].
  intros H. injection H as <-.
  exists d, c, u.
  apply Z.ltb_ge in E1, E2, E3, E4.
  split; [reflexivity|]. split; [exact Ec|]. split; [exact Eu|].
  split; [exact S1|]. split; [exact S2|]. split; [lia|].
  split; [rewrite Es; discriminate|]. split; [lia|]. now rewrite Es.
Qed.

(** X8.  A body passes the request model exactly when it is an object
    whose [content] is a string of 10 to 10000 characters, not all of
    them blanks, and whose [user_id] is a string of 1 to 100 characters,
    neither of them holding a surrogate; the request the handler gets
    holds the stripped content and the user id as sent. *)
Theorem request_accepted_iff (request_body : pyval) (r : ResumeAnalysisRequest) :
  ResumeAnalysisRequest_validate request_body = Return r <->
  exists d c u,
    request_body = PyDict d
    /\ dict_get (str "content") d = Some (PyStr c)
    /\ dict_get (str "user_id") d = Some (PyStr u)
    /\ existsb is_surrogate c = false
    /\ existsb is_surrogate u = false
    /\ 10 <= len c <= 10000
    /\ strip c <> []
    /\ 1 <= len u <= 100
    /\ r = {| content := strip c; user_id := u |}.
Proof.
  split.
  - apply validate_returns.
  - intros (d & c & u & -> & Hc & Hu & Hsc & Hsu & Hlc & Hs & Hlu & ->).
    now apply validate_accepted.
Qed.

(** X9.  The content of an accepted request is not empty, has no blanks
    left at its ends and has at most 10000 characters; with the default
    maximum of 10000 the orchestrator therefore never truncates a content
    that came through the endpoint. *)
Theorem accepted_content_is_trimmed (request_body : pyval)
    (r : ResumeAnalysisRequest) :
  ResumeAnalysisRequest_validate request_body = Return r ->
  content r <> []
  /\ strip (content r) = content r
  /\ 1 <= len (content r) <= 10000
  /\ 1 <= len (user_id r) <= 100
  /\ truncate default_settings (content r) = content r.
Proof.
  intros H. apply validate_returns in H
    as (d & c & u & -> & Hc & Hu & _ & _ & Hlc & Hs & Hlu & ->).
  cbn [content user_id].
  pose proof (strip_length c) as Hl.
  assert (Hpos : 1 <= len (strip c)).
  { destruct (strip c); [congruence|]. unfold len. cbn [List.length]. lia. }
  split; [exact Hs|]. split; [apply strip_idem|].
  split; [lia|]. split; [lia|].
  unfold truncate. cbn [max_analysis_length default_settings].
  destruct (10000 <? len (strip c)) eqn:E; [apply Z.ltb_lt in E; lia|reflexivity].
Qed.

Lemma accepted_content_is_trimmed_witness :
  let r := {| content := str "Senior engineer"; user_id := str "user123" |} in
  ResumeAnalysisRequest_validate
    (request_body ([9%N] ++ str "Senior engineer" ++ NL) (str "user123"))
  = Return r
  /\ strip (content r) = content r
  /\ truncate default_settings (content r) = content r.
Proof.
  intros r.
  assert (H : ResumeAnalysisRequest_validate
                (request_body ([9%N] ++ str "Senior engineer" ++ NL) (str "user123"))
              = Return r) by (vm_compute; reflexivity).
  destruct (accepted_content_is_trimmed _ r H) as (_ & H1 & _ & _ & H2).
  split; [exact H|split; [exact H1|exact H2]].
Defined.



End RequestValidation.


(** ** The orchestrator and the handler, outcome by outcome *)

Section Outcomes.
Import Config Models Agent Main Service.
Local Open Scope res_scope.

(** The result of [analyze_resume] of an initialised agent, as one
    computation that may raise, followed by the [except] clauses. *)
Lemma analyze_resume_result (self : ResumeAnalyzerAgent) (session : ChatAgent)
    (clk : Clock) (content user_id : pystr) (st : State) :
  _agent self = Some session ->
  let sent := truncate (settings self) content in
  fst (Agent.analyze_resume self clk content user_id st)
  = match
      (text <- wait_for (run session (make_prompt sent))
                        (request_timeout (settings self)) ;;
       analysis <- _parse_agent_response text ;;
       sc <- getitem analysis (str "score") ;;
       oc <- getitem analysis (str "optimized_content") ;;
       sl <- getitem analysis (str "suggestions") ;;
       items <- iterate sl ;;
       suggs <- Res.mapM Suggestion_init items ;;
       Return (sc, oc, suggs,
               [ (str "processing_time_ms", PyFloat (processing_time_ms clk));
                 (str "model_used", PyStr (model_deployment_name (settings self)));
                 (str "content_length", PyInt (len sent));
                 (str "user_id", PyStr user_id);
                 (str "timestamp", PyStr (timestamp clk)) ]))
    with
    | Raise TimeoutError => Raise (ValueError TIMEOUT_MESSAGE)
    | r => r
    end.
Proof.
  intros Hs sent. subst sent.
  unfold Agent.analyze_resume, bind, try_except, emit, lift, ret, raise.
  rewrite Hs. cbn [trace _agent_instance].
  repeat match goal with
         | |- context [Res.bind ?r _] =>
             match r with
             | Res.bind _ _ => fail 1
             | _ => destruct r; cbn [Res.bind]
             end
         end;
    try reflexivity;
    match goal with
    | |- context [match ?e with TimeoutError => _ | _ => _ end] =>
        destruct e; reflexivity
    end.
Qed.

(** The answer of the handler to an exception. *)
Lemma handler_result (w : World) (request : ResumeAnalysisRequest) (st : State)
    (self : ResumeAnalyzerAgent) :
  _agent_instance st = Some self ->
  fst (Main.analyze_resume w request st)
  = match fst (Agent.analyze_resume self (clock w)
                 (content request) (user_id request) st) with
    | Return (sc, oc, suggs, metadata) =>
        match ResumeAnalysisResponse_init sc oc suggs metadata with
        | Return response =>
            Return {| status_code := 200; body := AnalysisBody response |}
        | Raise e =>
            Return (if is_ValueError e
                    then {| status_code := 400; body := DetailBody (exn_str e) |}
                    else {| status_code := 500;
                            body := DetailBody ANALYSIS_ERROR_MESSAGE |})
        end
    | Raise e =>
        Return (if is_ValueError e
                then {| status_code := 400; body := DetailBody (exn_str e) |}
                else {| status_code := 500;
                        body := DetailBody ANALYSIS_ERROR_MESSAGE |})
    end.
Proof.
  intros Hi.
  unfold Main.analyze_resume, try_except, bind, get_agent, lift, ret.
  rewrite Hi.
  destruct (Agent.analyze_resume self (clock w) (content request)
              (user_id request) st) as [[[[[sc oc] suggs] md]|e] st'];
    cbn [fst].
  - destruct (ResumeAnalysisResponse_init sc oc suggs md) as [resp|e];
      [reflexivity|]. destruct (is_ValueError e); reflexivity.
  - destruct (is_ValueError e); reflexivity.
Qed.

(** X11.  An agent without a session refuses to analyse: [analyze_resume]
    raises the [RuntimeError] "Agent not initialized. Call initialize()
    first." before any prompt is built or submitted, and [POST /analyze]
    answers 500 with its fixed message, which does not show the error. *)
Theorem uninitialised_agent_refuses (w : World) (self : ResumeAnalyzerAgent)
    (request : ResumeAnalysisRequest) (st : State) :
  _agent_instance st = Some self ->
  _agent self = None ->
  Agent.analyze_resume self (clock w) (content request) (user_id request) st
    = (Raise (RuntimeError (str "Agent not initialized. Call initialize() first.")),
       {| _agent_instance := _agent_instance st;
          trace := trace st ++ [Invoked (content request) (user_id request)] |})
  /\ fst (Main.analyze_resume w request st)
     = Return {| status_code := 500;
                 body := DetailBody
                   (str "An error occurred during resume analysis. Please try again later.") |}.
Proof.
  intros Hi Hn.
  assert (Ha : Agent.analyze_resume self (clock w) (content request)
                 (user_id request) st
               = (Raise (RuntimeError
                           (str "Agent not initialized. Call initialize() first.")),
                  {| _agent_instance := _agent_instance st;
                     trace := trace st
                              ++ [Invoked (content request) (user_id request)] |})).
  { unfold Agent.analyze_resume, bind, try_except, emit, raise.
    rewrite Hn. reflexivity. }
  split; [exact Ha|].
  rewrite (handler_result w request st self Hi), Ha. reflexivity.
Qed.

Lemma uninitialised_agent_refuses_witness :
  let w := {| get_settings := default_settings;
              connect := Raise (RemoteError (str "no credentials"));
              clock := {| processing_time_ms := float_of_Z 0; timestamp := [] |} |} in
  let st := snd (get_agent w initial_state) in
  fst (Main.analyze_resume w
         {| content := str "Senior engineer"; user_id := str "user123" |} st)
  = Return {| status_code := 500;
              body := DetailBody
                (str "An error occurred during resume analysis. Please try again later.") |}.
Proof.
  intros w st.
  exact (proj2 (uninitialised_agent_refuses w
                  {| settings := default_settings; _agent := None |}
                  {| content := str "Senior engineer"; user_id := str "user123" |}
                  st eq_refl eq_refl)).
Defined.

Lemma wait_for_in_time (call : Reply) (timeout : Z) :
  0 < timeout -> latency_ms call <= 1000 * timeout ->
  wait_for call timeout = outcome call.
Proof.
  intros Hp Hl. unfold wait_for.
  destruct (timeout <=? 0) eqn:E1; [apply Z.leb_le in E1; lia|].
  destruct (1000 * timeout <? latency_ms call) eqn:E2;
    [apply Z.ltb_lt in E2; lia|reflexivity].
Qed.

(** X12.  A failure of the remote call is reported as it is, after one
    attempt: with a positive timeout, when the call ends in time by
    raising [e], [analyze_resume] raises [e] again, except that a timeout
    error raised by the call itself is reported like an expired timeout.
    The handler answers 400 with the message when what is reported is a
    plain [ValueError], and 500 with its fixed message when it is no
    [ValueError] at all. *)
Theorem remote_failure_reported (w : World) (self : ResumeAnalyzerAgent)
    (session : ChatAgent) (request : ResumeAnalysisRequest) (st : State) (e : exn) :
  _agent_instance st = Some self ->
  _agent self = Some session ->
  0 < request_timeout (settings self) ->
  let call := run session
                (make_prompt (truncate (settings self) (content request))) in
  latency_ms call <= 1000 * request_timeout (settings self) ->
  outcome call = Raise e ->
  let reported := match e with
                  | TimeoutError => ValueError TIMEOUT_MESSAGE
                  | _ => e
                  end in
  fst (Agent.analyze_resume self (clock w) (content request) (user_id request) st)
    = Raise reported
  /\ trace (snd (Agent.analyze_resume self (clock w) (content request)
                   (user_id request) st))
     = trace st ++ [ Invoked (content request) (user_id request);
                     Submitted (make_prompt
                                  (truncate (settings self) (content request))) ]
  /\ (forall msg, reported = ValueError msg ->
        fst (Main.analyze_resume w request st)
        = Return {| status_code := 400; body := DetailBody msg |})
  /\ (is_ValueError reported = false ->
        fst (Main.analyze_resume w request st)
        = Return {| status_code := 500;
                    body := DetailBody ANALYSIS_ERROR_MESSAGE |}).
Proof.
  intros Hi Hs Hpos call Hlat Ho reported.
  assert (Ha : fst (Agent.analyze_resume self (clock w) (content request)
                      (user_id request) st) = Raise reported).
  { rewrite (analyze_resume_result self session) by assumption.
    fold call. rewrite (wait_for_in_time call _ Hpos Hlat), Ho.
    cbn [Res.bind]. subst reported. destruct e; reflexivity. }
  split; [exact Ha|split; [|split]].
  - now apply (analyze_resume_trace self session).
  - intros msg Hm. rewrite (handler_result w request st self Hi), Ha, Hm.
    reflexivity.
  - intros Hv. rewrite (handler_result w request st self Hi), Ha, Hv.
    reflexivity.
Qed.

Lemma remote_failure_reported_witness :
  let session := {| run := fun _ => {| latency_ms := 40;
                                       outcome := Raise (RemoteError (str "quota")) |} |} in
  let self := {| settings := default_settings; _agent := Some session |} in
  let w := {| get_settings := default_settings; connect := Return session;
              clock := {| processing_time_ms := float_of_Z 40; timestamp := [] |} |} in
  let st := {| _agent_instance := Some self; trace := [] |} in
  fst (Main.analyze_resume w
         {| content := str "Senior engineer"; user_id := str "user123" |} st)
  = Return {| status_code := 500; body := DetailBody ANALYSIS_ERROR_MESSAGE |}.
Proof.
  intros session self w st.
  exact (proj2 (proj2 (proj2 (remote_failure_reported w self session
                  {| content := str "Senior engineer"; user_id := str "user123" |}
                  st (RemoteError (str "quota")) eq_refl eq_refl eq_refl
                  ltac:(discriminate) eq_refl))) eq_refl).
Defined.

(** X13.  A reply the normaliser refuses is reported to the client: with
    a positive timeout, when the remote call answers in time with a text
    within the limits of the interpreter for which the normaliser raises,
    [analyze_resume] raises the same exception; for a missing required
    field the handler answers 400 with "Missing required field: " and the
    field as detail, for a [TypeError] it answers 500 with its fixed
    message. *)
Theorem normalizer_failure_reported (w : World) (self : ResumeAnalyzerAgent)
    (session : ChatAgent) (request : ResumeAnalysisRequest) (st : State)
    (text : pystr) (e : exn) :
  _agent_instance st = Some self ->
  _agent self = Some session ->
  0 < request_timeout (settings self) ->
  let call := run session
                (make_prompt (truncate (settings self) (content request))) in
  latency_ms call <= 1000 * request_timeout (settings self) ->
  outcome call = Return text ->
  Json.within_limits (extract_json_text text) = true ->
  _parse_agent_response text = Raise e ->
  fst (Agent.analyze_resume self (clock w) (content request) (user_id request) st)
    = Raise e
  /\ ((exists f, In f required_fields
         /\ e = ValueError (str "Missing required field: " ++ f)
         /\ fst (Main.analyze_resume w request st)
            = Return {| status_code := 400;
                        body := DetailBody (str "Missing required field: " ++ f) |})
      \/ (exists msg, e = TypeError msg
            /\ fst (Main.analyze_resume w request st)
               = Return {| status_code := 500;
                           body := DetailBody ANALYSIS_ERROR_MESSAGE |})).
Proof.
  intros Hi Hs Hpos call Hlat Ho _ Hp.
  assert (Ha : fst (Agent.analyze_resume self (clock w) (content request)
                      (user_id request) st) = Raise e).
  { rewrite (analyze_resume_result self session) by assumption.
    fold call. rewrite (wait_for_in_time call _ Hpos Hlat), Ho.
    cbn [Res.bind]. rewrite Hp. cbn [Res.bind].
    destruct (parse_raises text e Hp) as [[f [_ ->]]|[m ->]]; reflexivity. }
  split; [exact Ha|].
  rewrite (handler_result w request st self Hi), Ha.
  destruct (parse_raises text e Hp) as [[f [Hf ->]]|[m ->]].
  - left. exists f. split; [exact Hf|]. split; reflexivity.
  - right. exists m. split; reflexivity.
Qed.

Lemma normalizer_failure_reported_witness :
  let session := {| run := fun _ => {| latency_ms := 40;
                                       outcome := Return (quoted "{'score': 50}") |} |} in
  let self := {| settings := default_settings; _agent := Some session |} in
  let w := {| get_settings := default_settings; connect := Return session;
              clock := {| processing_time_ms := float_of_Z 40; timestamp := [] |} |} in
  let st := {| _agent_instance := Some self; trace := [] |} in
  fst (Agent.analyze_resume self (clock w) (str "Senior engineer") (str "user123") st)
  = Raise (ValueError (str "Missing required field: optimized_content")).
Proof.
  intros session self w st.
  exact (proj1 (normalizer_failure_reported w self session
                  {| content := str "Senior engineer"; user_id := str "user123" |}
                  st (quoted "{'score': 50}")
                  (ValueError (str "Missing required field: optimized_content"))
                  eq_refl eq_refl eq_refl ltac:(discriminate) eq_refl eq_refl
                  ltac:(vm_compute; reflexivity))).
Defined.

Lemma truncate_length (st : Settings) (content : pystr) :
  0 <= max_analysis_length st ->
  len (truncate st content) = Z.min (len content) (max_analysis_length st).
Proof.
  intros H. rewrite truncate_spec by assumption.
  destruct (max_analysis_length st <? len content) eqn:E.
  - apply Z.ltb_lt in E. unfold len in *. rewrite length_firstn. lia.
  - apply Z.ltb_ge in E. lia.
Qed.

(** X14.  A successful analysis: with a positive timeout, when the remote
    call answers in time with a text within the limits of the
    interpreter that the normaliser turns into an object whose
    suggestions are a list of items with string categories and
    descriptions and integer priorities that pass the [Suggestion] model,
    [analyze_resume] returns the score and the optimized content of that
    object, the suggestions, and a metadata whose [content_length] is the
    length of the content as it was sent to the remote agent (at most the
    configured maximum), not as it was received. *)
Theorem analysis_success (self : ResumeAnalyzerAgent) (session : ChatAgent)
    (clk : Clock) (content user_id text : pystr) (st : State)
    (d : pydict) (sc oc : pyval) (items : list pyval) (suggs : list Suggestion) :
  _agent self = Some session ->
  0 <= max_analysis_length (settings self) ->
  0 < request_timeout (settings self) ->
  let call := run session (make_prompt (truncate (settings self) content)) in
  latency_ms call <= 1000 * request_timeout (settings self) ->
  outcome call = Return text ->
  Json.within_limits (extract_json_text text) = true ->
  _parse_agent_response text = Return (PyDict d) ->
  dict_get (str "score") d = Some sc ->
  dict_get (str "optimized_content") d = Some oc ->
  dict_get (str "suggestions") d = Some (PyList items) ->
  forallb typed_suggestion items = true ->
  Res.mapM Suggestion_init items = Return suggs ->
  exists metadata,
    fst (Agent.analyze_resume self clk content user_id st)
      = Return (sc, oc, suggs, metadata)
    /\ in_range sc = Return true
    /\ dict_get (str "content_length") metadata
       = Some (PyInt (Z.min (len content) (max_analysis_length (settings self))))
    /\ dict_get (str "user_id") metadata = Some (PyStr user_id)
    /\ dict_get (str "model_used") metadata
       = Some (PyStr (model_deployment_name (settings self)))
    /\ dict_get (str "processing_time_ms") metadata
       = Some (PyFloat (processing_time_ms clk))
    /\ dict_get (str "timestamp") metadata = Some (PyStr (timestamp clk)).
Proof.
  intros Hs Hn Hpos call Hlat Ho _ Hp H1 H2 H3 _ Hm.
  eexists. split.
  - rewrite (analyze_resume_result self session) by assumption.
    fold call. rewrite (wait_for_in_time call _ Hpos Hlat), Ho.
    cbn [Res.bind]. rewrite Hp. cbn [Res.bind].
    unfold getitem. rewrite H1, H2, H3. cbn [Res.bind iterate].
    rewrite Hm. cbn [Res.bind]. reflexivity.
  - split.
    + destruct (parse_returns text _ Hp)
        as (d' & sc' & Hd & Hs' & Hr & _).
      injection Hd as <-. rewrite H1 in Hs'. injection Hs' as <-. exact Hr.
    + rewrite truncate_length by assumption.
      repeat split; reflexivity.
Qed.

Lemma analysis_success_witness :
  let text := quoted
    "{'score': 120, 'optimized_content': 'Better', 'suggestions': [{'category': 'Skills', 'description': 'Add cloud', 'priority': 2}]}" in
  let session := {| run := fun _ => {| latency_ms := 900; outcome := Return text |} |} in
  let self := {| settings := {| model_deployment_name := str "gpt-4o-deployment";
                                max_analysis_length := 12;
                                request_timeout := 30 |};
                 _agent := Some session |} in
  let clk := {| processing_time_ms := float_of_Z 900; timestamp := [] |} in
  exists metadata,
    fst (Agent.analyze_resume self clk (str "Software Engineer, 5 years of Python")
           (str "user123") initial_state)
    = Return (PyInt 100, PyStr (str "Better"),
              [ {| category := str "Skills"; description := str "Add cloud";
                   priority := 2 |} ],
              metadata)
    /\ dict_get (str "content_length") metadata = Some (PyInt 12).
Proof.
  intros text session self clk.
  destruct (analysis_success self session clk
              (str "Software Engineer, 5 years of Python") (str "user123")
              text initial_state
              [ (str "score", PyInt 100);
                (str "optimized_content", PyStr (str "Better"));
                (str "suggestions",
                 PyList [ PyDict [ (str "category", PyStr (str "Skills"));
                                   (str "description", PyStr (str "Add cloud"));
                                   (str "priority", PyInt 2) ] ]) ]
              (PyInt 100) (PyStr (str "Better"))
              [ PyDict [ (str "category", PyStr (str "Skills"));
                         (str "description", PyStr (str "Add cloud"));
                         (str "priority", PyInt 2) ] ]
              [ {| category := str "Skills"; description := str "Add cloud";
                   priority := 2 |} ]
              eq_refl ltac:(discriminate) eq_refl ltac:(discriminate) eq_refl
              ltac:(vm_compute; reflexivity)
              ltac:(vm_compute; reflexivity) eq_refl eq_refl eq_refl
              ltac:(vm_compute; reflexivity)
              ltac:(vm_compute; reflexivity))
    as (metadata & H & _ & Hl & _).
  exists metadata. split; [exact H|exact Hl].
Defined.

(** What the models let through. *)
Lemma Suggestion_init_priority (v : pyval) (sg : Suggestion) :
  Suggestion_init v = Return sg -> 1 <= priority sg <= 5.
Proof.
  unfold Suggestion_init. destruct v as [| | | | | | d]; try discriminate.
  destruct (required "category" d (str_field None None)); [|discriminate].
  destruct (required "description" d (str_field None None)); [|discriminate].
  destruct (required "priority" d (int_field 1 5)) as [z|] eqn:E; [|discriminate].
  intros H. injection H as <-. cbn [priority].
  unfold required in E. destruct (dict_get (str "priority") d) as [p|];
    [|discriminate]. unfold int_field in E.
  destruct (match p with
            | PyInt z0 => Some z0
            | PyBool b => Some (Z.b2z b)
            | PyFloat f => float_as_int f
            | PyStr s0 => str_as_int s0
            | _ => None
            end) as [z0|]; [|discriminate].
  destruct (z0 <? 1) eqn:E1; [discriminate|].
  destruct (5 <? z0) eqn:E2; [discriminate|].
  injection E as <-. apply Z.ltb_ge in E1, E2. lia.
Qed.

Lemma mapM_Suggestion_priorities (items : list pyval) (suggs : list Suggestion) :
  Res.mapM Suggestion_init items = Return suggs ->
  Forall (fun sg => 1 <= priority sg <= 5) suggs.
Proof.
  revert suggs. induction items as [|v items IH]; intros suggs; cbn [Res.mapM].
  - intros H. injection H as <-. constructor.
  - destruct (Suggestion_init v) as [sg|] eqn:E; cbn [Res.bind]; [|discriminate].
    destruct (Res.mapM Suggestion_init items) as [l|]; cbn [Res.bind];
      [|discriminate].
    intros H. injection H as <-. constructor.
    + now apply Suggestion_init_priority in E.
    + now apply IH.
Qed.

Lemma response_init_score (sc oc : pyval) (suggs : list Suggestion)
    (metadata : pydict) (r : ResumeAnalysisResponse) :
  ResumeAnalysisResponse_init sc oc suggs metadata = Return r ->
  in_range (PyFloat (score r)) = Return true
  /\ oc = PyStr (optimized_content r)
  /\ suggestions r = suggs
  /\ analysis_metadata r = metadata.
Proof.
  unfold ResumeAnalysisResponse_init.
  destruct (float_field 0 100 sc) as [f|] eqn:Ef; [|discriminate].
  destruct (str_field None None oc) as [o|] eqn:Eo;
    [|destruct oc; discriminate].
  intros H. injection H as <-. cbn [score optimized_content suggestions
                                     analysis_metadata].
  split; [|split; [|split; reflexivity]].
  - unfold float_field in Ef.
    destruct (match sc with
              | PyFloat f0 => Some f0
              | PyInt z => Some (float_of_Z z)
              | PyBool b => Some (float_of_Z (Z.b2z b))
              | _ => None
              end) as [f0|]; [|discriminate].
    unfold in_range, py_le, num_compare. cbn [as_int Res.bind option_map].
    destruct (float_Z_compare f0 0) as [[| |]|] eqn:E0; try discriminate;
      destruct (float_Z_compare f0 100) as [[| |]|] eqn:E1; try discriminate;
      injection Ef as <-; rewrite E0; cbn [option_map CompOpp Res.bind];
      rewrite E1; reflexivity.
  - destruct oc; try discriminate. cbn in Eo. now injection Eo as ->.
Qed.

Lemma analyze_resume_suggestions (self : ResumeAnalyzerAgent) (clk : Clock)
    (content user_id : pystr) (st : State)
    (sc oc : pyval) (suggs : list Suggestion) (metadata : pydict) :
  fst (Agent.analyze_resume self clk content user_id st)
    = Return (sc, oc, suggs, metadata) ->
  Forall (fun sg => 1 <= priority sg <= 5) suggs.
Proof.
  destruct (_agent self) as [session|] eqn:Hs.
  2:{ unfold Agent.analyze_resume, bind, try_except, emit, raise.
      rewrite Hs. discriminate. }
  rewrite (analyze_resume_result self session) by assumption.
  intros H.
  repeat match type of H with
         | context [Res.bind ?r _] =>
             match r with
             | Res.bind _ _ => fail 1
             | _ => destruct r as [?|[]] eqn:?; cbn [Res.bind] in H;
                    try discriminate H
             end
         end.
  injection H as _ _ <- _.
  eapply mapM_Suggestion_priorities. eassumption.
Qed.

(** X15.  The handler of [POST /analyze], entered with a validated
    request, lets no exception of the analysis through: it ends by
    returning a response (200) or by raising an HTTP exception with
    status 400 or 500.  The 500 carries the fixed message and nothing of
    the error.  A response it returns carries a score for which
    [0 <= score <= 100] holds and suggestions whose priorities all lie
    within [1, 5]. *)
Theorem handler_always_answers (w : World) (request : ResumeAnalysisRequest)
    (st : State) :
  exists response st',
    Main.analyze_resume w request st = (Return response, st')
    /\ (status_code response = 200 \/ status_code response = 400
        \/ status_code response = 500)
    /\ (status_code response = 500 ->
        body response = DetailBody ANALYSIS_ERROR_MESSAGE)
    /\ (status_code response = 200 ->
        exists r, body response = AnalysisBody r
                  /\ in_range (PyFloat (score r)) = Return true
                  /\ Forall (fun sg => 1 <= priority sg <= 5) (suggestions r)).
Proof.
  unfold Main.analyze_resume, try_except, bind, lift, ret.
  destruct (get_agent w st) as [[agent|e] st1].
  2:{ destruct (is_ValueError e); eexists; eexists; (split; [reflexivity|]);
        cbn [status_code body]; repeat split;
        try (intros H; discriminate H); auto. }
  destruct (Agent.analyze_resume agent (clock w) (content request)
              (user_id request) st1) as [[[[[sc oc] suggs] md]|e] st2] eqn:Ea.
  2:{ destruct (is_ValueError e); eexists; eexists; (split; [reflexivity|]);
        cbn [status_code body]; repeat split;
        try (intros H; discriminate H); auto. }
  destruct (ResumeAnalysisResponse_init sc oc suggs md) as [resp|e] eqn:Er.
  2:{ destruct (is_ValueError e); eexists; eexists; (split; [reflexivity|]);
        cbn [status_code body]; repeat split;
        try (intros H; discriminate H); auto. }
  eexists. eexists. split; [reflexivity|]. cbn [status_code body].
  split; [now left|]. split; [intros H; discriminate H|].
  intros _. exists resp.
  destruct (response_init_score _ _ _ _ _ Er) as (Hsc & _ & Hsg & _).
  split; [reflexivity|]. split; [exact Hsc|].
  rewrite Hsg. eapply analyze_resume_suggestions.
  rewrite Ea. reflexivity.
Qed.

End Outcomes.


(** ** The singleton and the health check *)

Section Lifecycle.
Import Config Models Agent Main Service.

(** X16.  One instance per process: once [get_agent] has returned an
    instance, every later call, whatever the environment has become,
    returns that same instance and changes nothing; no second session is
    opened. *)
Theorem get_agent_singleton (w : World) (st st' : State) (a : ResumeAnalyzerAgent) :
  get_agent w st = (Return a, st') ->
  _agent_instance st' = Some a
  /\ trace st' = trace st
  /\ forall w', get_agent w' st' = (Return a, st').
Proof.
  unfold get_agent.
  destruct (_agent_instance st) as [a0|] eqn:Hi.
  - intros H. injection H as <- <-. rewrite Hi.
    split; [reflexivity|]. split; [reflexivity|]. intros w'. reflexivity.
  - destruct (connect w) as [session|e]; intros H; [|discriminate H].
    injection H as <- <-. cbn [_agent_instance trace].
    split; [reflexivity|]. split; [reflexivity|]. intros w'. reflexivity.
Qed.

Lemma get_agent_singleton_witness :
  let w := example_world (str "first") 10 in
  let st := example_state (str "first") 10 in
  get_agent w initial_state
  = (Return {| settings := default_settings;
               _agent := Some {| run := fun _ => {| latency_ms := 10;
                                     outcome := Return (str "first") |} |} |},
     st)
  /\ get_agent (example_world (str "second") 20) st
     = (Return {| settings := default_settings;
                  _agent := Some {| run := fun _ => {| latency_ms := 10;
                                        outcome := Return (str "first") |} |} |},
        st).
Proof.
  intros w st. split; [reflexivity|].
  exact (proj2 (proj2 (get_agent_singleton w initial_state st _ eq_refl))
           (example_world (str "second") 20)).
Defined.

(** X17.  A failed initialisation sticks: [get_agent] stores the instance
    before it initialises it, so when the initialisation raises, the
    error goes to the caller once and an instance without a session
    stays.  Later calls return that instance without initialising it
    again, even when a session could now be opened, and every analysis
    is answered 500. *)
Theorem failed_initialisation_sticks (w : World) (st : State) (e : exn) :
  _agent_instance st = None ->
  connect w = Raise e ->
  let st' := snd (get_agent w st) in
  fst (get_agent w st) = Raise e
  /\ forall w' request,
       get_agent w' st'
       = (Return {| settings := get_settings w; _agent := None |}, st')
       /\ fst (Main.analyze_resume w' request st')
          = Return {| status_code := 500;
                      body := DetailBody ANALYSIS_ERROR_MESSAGE |}
       /\ _agent_instance (snd (Main.analyze_resume w' request st'))
          = Some {| settings := get_settings w; _agent := None |}.
Proof.
  intros Hi Hc st'.
  assert (Hst : st' = {| _agent_instance :=
                           Some {| settings := get_settings w; _agent := None |};
                         trace := trace st |}).
  { subst st'. unfold get_agent. now rewrite Hi, Hc. }
  split.
  - unfold get_agent. now rewrite Hi, Hc.
  - intros w' request. rewrite Hst. repeat split.
Qed.

Lemma failed_initialisation_sticks_witness :
  let w := {| get_settings := default_settings;
              connect := Raise (RemoteError (str "no credentials"));
              clock := {| processing_time_ms := float_of_Z 0; timestamp := [] |} |} in
  let st' := snd (get_agent w initial_state) in
  fst (Main.analyze_resume (example_world (str "ready") 10)
         {| content := str "Senior engineer"; user_id := str "user123" |} st')
  = Return {| status_code := 500; body := DetailBody ANALYSIS_ERROR_MESSAGE |}.
Proof.
  intros w st'.
  exact (proj1 (proj2 (proj2 (failed_initialisation_sticks w initial_state
                  (RemoteError (str "no credentials")) eq_refl eq_refl)
                  (example_world (str "ready") 10)
                  {| content := str "Senior engineer"; user_id := str "user123" |}))).
Defined.

(** X18.  The health check never fails and answers with the configured
    version.  It reports "healthy" exactly when, after the check, the
    process holds an instance with a session, and "degraded" otherwise;
    a failing initialisation is swallowed.  When an instance exists the
    check changes nothing; when none exists the check itself creates it. *)
Theorem health_check_never_fails (w : World) (api : ApiSettings) (st : State) :
  exists r st',
    health_check w api st = (Return r, st')
    /\ version r = api_version api
    /\ status r = (if ai_foundry_connected r then str "healthy" else str "degraded")
    /\ (ai_foundry_connected r = true <->
        exists a session, _agent_instance st' = Some a /\ _agent a = Some session)
    /\ trace st' = trace st
    /\ (_agent_instance st <> None -> st' = st)
    /\ (_agent_instance st = None -> exists a, _agent_instance st' = Some a).
Proof.
  unfold health_check, bind, try_except, ret, get_agent, has_session.
  destruct (_agent_instance st) as [a|] eqn:Hi.
  - eexists. eexists. split; [reflexivity|].
    cbn [version status ai_foundry_connected].
    split; [reflexivity|]. split; [reflexivity|]. split.
    + rewrite Hi. destruct (_agent a) as [session|] eqn:Ha; split.
      * intros _. now exists a, session.
      * reflexivity.
      * discriminate.
      * intros (a' & s' & H1 & H2). injection H1 as <-. congruence.
    + split; [reflexivity|]. split; [reflexivity|]. discriminate.
  - destruct (connect w) as [session|e].
    + eexists. eexists. split; [reflexivity|].
      cbn [version status ai_foundry_connected _agent _agent_instance trace].
      split; [reflexivity|]. split; [reflexivity|]. split.
      * split; [|reflexivity]. intros _. eexists. eexists. split; reflexivity.
      * split; [reflexivity|]. split; [congruence|]. intros _. eexists. reflexivity.
    + eexists. eexists. split; [reflexivity|].
      cbn [version status ai_foundry_connected _agent _agent_instance trace].
      split; [reflexivity|]. split; [reflexivity|]. split.
      * split; [discriminate|].
        intros (a' & s' & H1 & H2). injection H1 as <-. discriminate H2.
      * split; [reflexivity|]. split; [congruence|]. intros _. eexists. reflexivity.
Qed.

(** X19.  A started application is healthy: the start-up of [lifespan]
    succeeds exactly when the session can be opened and fails with the
    error of the initialisation otherwise; after a successful start-up
    the health check answers "healthy" and leaves the process as it is. *)
Theorem started_application_is_healthy (w : World) (api : ApiSettings) :
  (forall st, lifespan_startup w = Return st ->
     (exists session, connect w = Return session)
     /\ health_check w api st
        = (Return {| status := str "healthy";
                     version := api_version api;
                     ai_foundry_connected := true |}, st))
  /\ (forall e, lifespan_startup w = Raise e <-> connect w = Raise e).
Proof.
  unfold lifespan_startup, get_agent, initial_state. cbn [_agent_instance trace].
  destruct (connect w) as [session|e0]; split.
  - intros st H. injection H as <-. split; [now exists session|reflexivity].
  - intros e. split; discriminate.
  - intros st H. discriminate H.
  - intros e. split; intros H; injection H as <-; reflexivity.
Qed.

Lemma started_application_is_healthy_witness :
  let w := example_world (str "ready") 10 in
  let st := example_state (str "ready") 10 in
  lifespan_startup w = Return st
  /\ health_check w default_api_settings st
     = (Return {| status := str "healthy"; version := str "1.0.0";
                  ai_foundry_connected := true |}, st).
Proof.
  intros w st.
  assert (H : lifespan_startup w = Return st) by reflexivity.
  split; [exact H|].
  exact (proj2 (proj1 (started_application_is_healthy w default_api_settings) st H)).
Defined.

End Lifecycle.
